(** * pdf-rag-service: the document cache and the conversational query pipeline

    A shallow embedding of [src/main.py], [src/agents/pdf_chain.py],
    [src/models/pdf_processor.py] and [src/models/embeddings_faiss.py].

    The service keeps one process-wide dictionary, [vectorstore_cache], and
    talks to four outside collaborators: the PDF reader, the text splitter,
    the embedding provider and the retrieval chain with its language model.
    The dictionary is modelled as an insertion-ordered association list (a
    Python [dict] iterates in insertion order, and [cache_stats] iterates
    it); the handlers are written in a state-and-exception monad over the
    dictionary and a log of the calls made to the collaborators; the
    collaborators are Section variables, so every theorem holds for every
    behaviour they may have. *)

From Stdlib Require Import List String Ascii Strings.Byte Arith Bool Lia.
From Stdlib Require Import Sorting.Sorted Sorting.Permutation.
From Stdlib Require Import Numbers.DecimalString.
Import ListNotations.
Local Open Scope list_scope.
Local Open Scope string_scope.
Local Open Scope nat_scope.

Set Implicit Arguments.

(** ** Python strings *)

Module PyStr.

(** The line feed, ["\n"] in the source. *)
Definition nl : string := String (ascii_of_nat 10) EmptyString.

(** [sep.join(parts)]. *)
Fixpoint join (sep : string) (parts : list string) : string :=
  match parts with
  | [] => ""
  | [p] => p
  | p :: rest => p ++ sep ++ join sep rest
  end.

(** [str.isspace] on one character, for code points below 256. *)
Definition isspace (c : ascii) : bool :=
  let n := nat_of_ascii c in
  ((9 <=? n) && (n <=? 13)) || ((28 <=? n) && (n <=? 32))
  || (n =? 133) || (n =? 160).

Fixpoint lstrip (s : string) : string :=
  match s with
  | EmptyString => EmptyString
  | String c s' => if isspace c then lstrip s' else s
  end.

Fixpoint rstrip (s : string) : string :=
  match s with
  | EmptyString => EmptyString
  | String c s' =>
      match rstrip s' with
      | EmptyString => if isspace c then EmptyString else String c EmptyString
      | r => String c r
      end
  end.

(** [s.strip()]. *)
Definition strip (s : string) : string := rstrip (lstrip s).

(** Truthiness of a string: [if s:]. *)
Definition truthy (s : string) : bool :=
  match s with EmptyString => false | _ => true end.

(** [str(n)] and [f"{n}"] for a non-negative integer. *)
Definition of_nat (n : nat) : string := NilZero.string_of_uint (Nat.to_uint n).

End PyStr.

(** ** Python dictionaries with string keys

    Keys are kept in insertion order and are unique ([wf]); assignment to a
    present key replaces the value in place, assignment to an absent key
    appends. *)

Module Dict.
Section Dict.
Variable V : Type.

Definition t := list (string * V).

Definition empty : t := [].

(** [d.get(k)], [None] when [k] is absent. *)
Fixpoint get (d : t) (k : string) : option V :=
  match d with
  | [] => None
  | (k', v) :: d' => if String.eqb k' k then Some v else get d' k
  end.

(** [k in d]. *)
Definition contains (d : t) (k : string) : bool :=
  match get d k with Some _ => true | None => false end.

(** [d[k] = v]. *)
Fixpoint set (d : t) (k : string) (v : V) : t :=
  match d with
  | [] => [(k, v)]
  | (k', v') :: d' =>
      if String.eqb k' k then (k', v) :: d' else (k', v') :: set d' k v
  end.

(** [del d[k]]: the entry of [k] is taken out and the others keep their
    order; [None] stands for the [KeyError] on an absent key. *)
Definition del (d : t) (k : string) : option t :=
  if contains d k
  then Some (filter (fun p => negb (String.eqb (fst p) k)) d)
  else None.

(** [len(d)]. *)
Definition len (d : t) : nat := List.length d.

(** The dictionary after [d.clear()]. *)
Definition clear (d : t) : t := [].

(** [d.items()], in iteration order. *)
Definition items (d : t) : list (string * V) := d.

Definition keys (d : t) : list string := map fst d.

(** Keys are unique. *)
Definition wf (d : t) : Prop := NoDup (keys d).

End Dict.

Arguments empty {V}.
End Dict.

(** ** Exceptions *)

Inductive Exception : Type :=
| HTTPException (status_code : nat) (detail : string)
| ValueError (msg : string)
| KeyError (key : string)
| OtherError (msg : string).

(** ** Data of the service *)

(** The pydantic model [Message]. *)
Record Message : Type := { role : string; content : string }.

(** The value stored under a file id: the dictionary literal of
    [index_pdf], with its three keys ['text'], ['file_name'] and
    ['text_length']. *)
Record CacheEntry : Type := {
  text : string;
  file_name : string;
  text_length : nat
}.

(** The uploaded file: [file.filename] and the bytes of [file.read()]. *)
Record UploadFile : Type := { filename : string; file_bytes : list byte }.

(** [Document(page_content=chunk)]. *)
Record Document : Type := { page_content : string }.

(** A value held by the result dictionary of the retrieval chain. *)
Inductive Value : Type :=
| VStr (s : string)
| VDocs (docs : list Document)
| VNone.

(** A call to an outside collaborator, as the log records it. *)
Inductive Call : Type :=
| CallPdfReader (data : list byte)
| CallSplitText (txt : string)
| CallEmbedDocuments (texts : list string)
| CallAInvoke (input : string).

(** The state the handlers run in: the module-level [vectorstore_cache]
    and the log of collaborator calls, oldest first. *)
Record State : Type := {
  vectorstore_cache : Dict.t CacheEntry;
  calls : list Call
}.

(** ** The state-and-exception monad

    A raised exception keeps the state reached so far: Python does not
    roll back. *)

Definition M (A : Type) : Type := State -> (Exception + A) * State.

Definition ret {A} (a : A) : M A := fun st => (inr a, st).

Definition raise {A} (e : Exception) : M A := fun st => (inl e, st).

Definition bind {A B} (m : M A) (k : A -> M B) : M B :=
  fun st =>
    match m st with
    | (inr a, st') => k a st'
    | (inl e, st') => (inl e, st')
    end.

(** [try: m  except Exception as e: h e]. *)
Definition try_except {A} (m : M A) (h : Exception -> M A) : M A :=
  fun st =>
    match m st with
    | (inr a, st') => (inr a, st')
    | (inl e, st') => h e st'
    end.

Definition get_cache : M (Dict.t CacheEntry) :=
  fun st => (inr (vectorstore_cache st), st).

Definition put_cache (c : Dict.t CacheEntry) : M unit :=
  fun st => (inr tt, {| vectorstore_cache := c; calls := calls st |}).

(** Record a call; the answer is the call's position in the log, which the
    network collaborators may depend on (they can fail at one time and
    succeed at another). *)
Definition log_call (c : Call) : M nat :=
  fun st => (inr (List.length (calls st)),
             {| vectorstore_cache := vectorstore_cache st;
                calls := (calls st ++ [c])%list |}).

(** Lift the outcome of a collaborator. *)
Definition lift {A} (r : Exception + A) : M A :=
  match r with inl e => raise e | inr a => ret a end.

Declare Scope monad_scope.
Delimit Scope monad_scope with monad.
Notation "x <- c1 ;; c2" := (bind c1 (fun x => c2))
  (at level 61, c1 at next level, right associativity) : monad_scope.
Notation "c1 ;; c2" := (bind c1 (fun _ => c2))
  (at level 61, right associativity) : monad_scope.
Local Open Scope monad_scope.

(** The state once one more call has been logged. *)
Definition logged (st : State) (c : Call) : State :=
  {| vectorstore_cache := vectorstore_cache st;
     calls := (calls st ++ [c])%list |}.

(** [verify_api_key], the dependency every protected route declares: it
    runs before the handler and raises 401 on a key that is not the
    configured one. The handlers below are what runs once it has
    returned. *)
Definition verify_api_key (AGENT_API_KEY x_api_key : string)
  : Exception + bool :=
  if negb (String.eqb x_api_key AGENT_API_KEY)
  then inl (HTTPException 401 "Invalid API key")
  else inr true.

(** The cache invariant of the data model: a stored text is never empty
    and [text_length] is its length. *)
Definition cache_ok (c : Dict.t CacheEntry) : Prop :=
  forall file_id info,
    Dict.get c file_id = Some info ->
    text info <> "" /\ text_length info = String.length (text info).

(** ** The service *)

Section Service.

(** *** Outside collaborators *)

(** The embedding vectors of the provider. *)
Variable Vec : Type.

(** [PdfReader(path).pages] with [page.extract_text()] taken of each page,
    for a file holding the given bytes ([None] or [""] for a page without
    text are both the empty string here); [inl] when the reader raises. *)
Variable pdf_pages : list byte -> Exception + list string.

(** [config.settings.OPENAI_API_KEY]; [None] when it is not set. *)
Variable OPENAI_API_KEY : option string.

(** [RecursiveCharacterTextSplitter(chunk_size=1000,
    chunk_overlap=200).split_text]. *)
Variable split_text : string -> list string.

(** [OpenAIEmbeddings.embed_documents], at a given position of the call
    log. *)
Variable embed_documents : nat -> list string -> Exception + list Vec.

(** [json.loads(chat_history)] followed by the construction of a
    [Message] from each entry. [json.JSONDecodeError] and pydantic's
    validation error are [ValueError]s; anything else the two steps raise
    is not. *)
Variable parse_chat_history : string -> Exception + list Message.

(** [str(e)] and [f"{e}"]. *)
Variable exc_str : Exception -> string.

(** *** [models/pdf_processor.py] *)

(** The loop of [extract_text_from_pdf]: [text += content + "\n"] for
    each page whose text is truthy. *)
Fixpoint append_pages (pages : list string) (acc : string) : string :=
  match pages with
  | [] => acc
  | page :: rest =>
      append_pages rest
        (if PyStr.truthy page then acc ++ page ++ PyStr.nl else acc)
  end.

(** The text of a file from the texts of its pages: the loop, then
    [text.strip()]. *)
Definition page_text (pages : list string) : string :=
  PyStr.strip (append_pages pages "").

Definition extract_text_from_pdf (data : list byte) : M string :=
  _ <- log_call (CallPdfReader data) ;;
  pages <- lift (pdf_pages data) ;;
  ret (page_text pages).

(** *** [models/embeddings_faiss.py] *)

(** The vector store: each document with its vector, in the order the
    documents were given. *)
Record FAISS : Type := { entries : list (Document * Vec) }.

(** Modelled from the spec: [FAISS.from_documents(docs, embeddings)], a
    call into the vector-store library, which is not part of the
    sources. It embeds the page contents of the documents with the
    embedding provider and stores, for each chunk, its vector and its
    original text; a failure of the provider is raised. *)
Definition FAISS_from_documents (docs : list Document) : M FAISS :=
  let texts := map page_content docs in
  tick <- log_call (CallEmbedDocuments texts) ;;
  vecs <- lift (embed_documents tick texts) ;;
  ret {| entries := combine docs vecs |}.

Definition create_faiss_index (txt : string) : M FAISS :=
  if negb (PyStr.truthy txt)
  then raise (ValueError "Cannot create index from empty text.")
  else
    _ <- log_call (CallSplitText txt) ;;
    let chunks := split_text txt in
    match chunks with
    | [] => raise (ValueError "Text was too short to be split into chunks.")
    | _ :: _ =>
        let docs := map (fun chunk => {| page_content := chunk |}) chunks in
        FAISS_from_documents docs
    end.

(** [vectorstore.as_retriever(search_kwargs={"k": 3})]. *)
Record Retriever : Type := { vectorstore : FAISS; search_k : nat }.

Definition get_retriever (vs : FAISS) : Retriever :=
  {| vectorstore := vs; search_k := 3 |}.

(** *** [agents/pdf_chain.py] *)

Definition system_prompt : string :=
  "You are an intelligent PDF assistant. Your main goal is to help the user "
  ++ "by answering questions using the provided PDF content as your "
  ++ "primary source of truth."
  ++ PyStr.nl ++ PyStr.nl
  ++ "However, if the user's question is relevant to the topic of the PDF "
  ++ "but not directly answered "
  ++ "within the provided context, you may use your general knowledge to "
  ++ "give a helpful and reasonable answer."
  ++ PyStr.nl ++ PyStr.nl
  ++ "If the question is completely unrelated to the PDF or outside its "
  ++ "scope, reply with: "
  ++ "'This seems unrelated to the PDF.'"
  ++ PyStr.nl ++ PyStr.nl
  ++ "Be concise, factual, and conversational."
  ++ PyStr.nl ++ PyStr.nl
  ++ "Context:" ++ PyStr.nl ++ "{context}".

(** The retrieval chain: the retriever, the chat model's name and
    streaming flag (its temperature, the float 0.1, is left out) and the
    two prompt messages. *)
Record Chain : Type := {
  retriever : Retriever;
  llm_model : string;
  llm_streaming : bool;
  prompt_system : string;
  prompt_human : string
}.

(** [chain.ainvoke({"input": q})]: retrieval and generation, by the chain
    library and the language model, at a given position of the call
    log. *)
Variable chain_ainvoke : nat -> Chain -> string -> Exception + Dict.t Value.

Definition key_truthy (k : option string) : bool :=
  match k with Some s => PyStr.truthy s | None => false end.

(** The chain [create_pdf_chain] assembles around a vector store. *)
Definition rag_chain (vs : FAISS) : Chain :=
  {| retriever := get_retriever vs;
     llm_model := "gpt-4.1-mini";
     llm_streaming := true;
     prompt_system := system_prompt;
     prompt_human := "{input}" |}.

Definition create_pdf_chain (txt : string) : M Chain :=
  if negb (key_truthy OPENAI_API_KEY)
  then raise (ValueError "OPENAI_API_KEY not found.")
  else
    vs <- create_faiss_index txt ;;
    ret (rag_chain vs).

(** *** [main.py] *)

(** One line of the transcript: the body of the loop of
    [format_history_for_context]. *)
Definition history_line (msg : Message) : string :=
  let r := if String.eqb (role msg) "user" then "User" else "Assistant" in
  r ++ ": " ++ content msg.

Definition format_history_for_context (messages : list Message) : string :=
  match messages with
  | [] => ""
  | _ :: _ => PyStr.join PyStr.nl (map history_line messages)
  end.

(** The [full_query] of [query]. *)
Definition full_query (messages : list Message) (q : string) : string :=
  match messages with
  | [] => q
  | _ :: _ =>
      let history_text := format_history_for_context messages in
      "Previous conversation:" ++ PyStr.nl ++ history_text
      ++ PyStr.nl ++ PyStr.nl ++ "Current question: " ++ q
  end.

(** The JSON object [index_pdf] returns; [text_length] is absent from it
    when the file was already indexed. *)
Record IndexResponse : Type := {
  resp_file_id : string;
  resp_file_name : string;
  resp_text_length : option nat;
  already_indexed : bool
}.

(** The body of the outer [try] of [index_pdf]. The temporary file the
    bytes go through is removed by the [finally] clause on every path and
    is left out. *)
Definition index_pdf_try (file_id : string) (file : UploadFile)
  : M IndexResponse :=
  let data := file_bytes file in
  match data with
  | [] => raise (HTTPException 400 "Empty file")
  | _ :: _ =>
      cache <- get_cache ;;
      if Dict.contains cache file_id
      then ret {| resp_file_id := file_id;
                  resp_file_name := filename file;
                  resp_text_length := None;
                  already_indexed := true |}
      else
        txt <- extract_text_from_pdf data ;;
        if negb (PyStr.truthy txt)
        then raise (HTTPException 400 "Could not extract text from PDF")
        else
          put_cache (Dict.set cache file_id
                       {| text := txt;
                          file_name := filename file;
                          text_length := String.length txt |}) ;;
          ret {| resp_file_id := file_id;
                 resp_file_name := filename file;
                 resp_text_length := Some (String.length txt);
                 already_indexed := false |}
  end.

(** [index_pdf]: every exception of the body, the [HTTPException]s it
    raises itself included, is caught by [except Exception] and raised
    again with status 500. *)
Definition index_pdf (file_id : string) (file : UploadFile)
  : M IndexResponse :=
  try_except (index_pdf_try file_id file)
    (fun e => raise (HTTPException 500 (exc_str e))).

Record QueryResponse : Type := { response : Value }.

(** [result.get("answer", "No answer found.")]. *)
Definition answer_of (result : Dict.t Value) : Value :=
  match Dict.get result "answer" with
  | Some v => v
  | None => VStr "No answer found."
  end.

(** The body of the outer [try] of [query]. *)
Definition query_try (file_id q chat_history : string) : M QueryResponse :=
  cache <- get_cache ;;
  if negb (Dict.contains cache file_id)
  then raise (HTTPException 404 "File not indexed. Call /index_pdf first.")
  else
    messages <-
      try_except (lift (parse_chat_history chat_history))
        (fun e =>
           match e with
           | ValueError _ =>
               raise (HTTPException 400 ("Invalid chat_history: " ++ exc_str e))
           | _ => raise e
           end) ;;
    match Dict.get cache file_id with
    | None => raise (KeyError file_id)
    | Some cached =>
        chain <- create_pdf_chain (text cached) ;;
        let fq := full_query messages q in
        tick <- log_call (CallAInvoke fq) ;;
        result <- lift (chain_ainvoke tick chain fq) ;;
        ret {| response := answer_of result |}
    end.

(** The two [except] clauses of [query]: an [HTTPException] passes
    through, any other exception is raised again with status 500. *)
Definition http_or_500 (e : Exception) : Exception :=
  match e with
  | HTTPException _ _ => e
  | _ => HTTPException 500 (exc_str e)
  end.

Definition query (file_id q chat_history : string) : M QueryResponse :=
  try_except (query_try file_id q chat_history)
    (fun e => raise (http_or_500 e)).

Record MessageResponse : Type := { message : string }.

(** The lookup and the [del] sit under the membership test, so their
    [KeyError] cannot occur. *)
Definition delete_from_cache (file_id : string) : M MessageResponse :=
  cache <- get_cache ;;
  if Dict.contains cache file_id
  then
    match Dict.get cache file_id, Dict.del cache file_id with
    | Some info, Some cache' =>
        let name := file_name info in
        put_cache cache' ;;
        ret {| message := "Removed " ++ name ++ " from cache" |}
    | _, _ => raise (KeyError file_id)
    end
  else raise (HTTPException 404 "File not found in cache").

Record HealthResponse : Type := {
  health_status : string;
  health_indexed_files : nat
}.

Definition health_check : M HealthResponse :=
  cache <- get_cache ;;
  ret {| health_status := "healthy";
         health_indexed_files := Dict.len cache |}.

Record FileSummary : Type := {
  sum_file_id : string;
  sum_name : string;
  sum_text_length : nat
}.

Record StatsResponse : Type := {
  indexed_files : nat;
  files : list FileSummary
}.

Definition cache_stats : M StatsResponse :=
  cache <- get_cache ;;
  ret {| indexed_files := Dict.len cache;
         files := map (fun '(file_id, info) =>
                         {| sum_file_id := file_id;
                            sum_name := file_name info;
                            sum_text_length := text_length info |})
                      (Dict.items cache) |}.

Definition clear_cache : M MessageResponse :=
  cache <- get_cache ;;
  let count := Dict.len cache in
  put_cache (Dict.clear cache) ;;
  ret {| message := "Cleared " ++ PyStr.of_nat count ++ " files from cache" |}.

End Service.

(** ** Retrieval *)

Section Retrieval.

Variable Vec : Type.

(** The similarity scores of the vector store and their order. *)
Variable Score : Type.
Variable score_leb : Score -> Score -> bool.

(** The similarity of a stored vector to the query vector. *)
Variable similarity : Vec -> Vec -> Score.

(** [OpenAIEmbeddings.embed_query]. *)
Variable embed_query : string -> Exception + Vec.

(** [closer qv a b]: entry [a] is at least as similar to [qv] as [b]. *)
Definition closer (qv : Vec) (a b : Document * Vec) : bool :=
  score_leb (similarity qv (snd b)) (similarity qv (snd a)).

(** [a] may come before [b] in a ranking for [qv]. *)
Definition before (qv : Vec) (a b : Document * Vec) : Prop :=
  closer qv a b = true.

(** Insertion of an entry into a list ordered by decreasing similarity,
    after the entries that are as similar as it. *)
Fixpoint insert_hit (qv : Vec) (e : Document * Vec)
    (l : list (Document * Vec)) : list (Document * Vec) :=
  match l with
  | [] => [e]
  | x :: l' =>
      if closer qv x e then x :: insert_hit qv e l' else e :: x :: l'
  end.

Fixpoint rank (qv : Vec) (l : list (Document * Vec))
    : list (Document * Vec) :=
  match l with
  | [] => []
  | e :: l' => insert_hit qv e (rank qv l')
  end.

(** The [k] entries of the index that are most similar to [qv], most
    similar first. *)
Definition nearest (index : FAISS Vec) (qv : Vec) (k : nat)
    : list (Document * Vec) :=
  firstn k (rank qv (entries index)).

(** Modelled from the spec: the retriever's search, which the sources
    only configure ([get_retriever]) and which runs inside the vector-store
    library. [retrieve index q k] embeds [q] with the embedding provider,
    then returns the texts of the [k] chunks whose vectors are closest by
    the index's similarity, ordered by decreasing similarity, and fewer
    than [k] when the index has fewer chunks; a failure of the provider is
    raised. *)
Definition retrieve (index : FAISS Vec) (q : string) (k : nat)
    : Exception + list string :=
  match embed_query q with
  | inl e => inl e
  | inr qv => inr (map (fun e => page_content (fst e)) (nearest index qv k))
  end.

(** The retrieval a [Retriever] performs: [retrieve] at the [k] it was
    configured with. *)
Definition retriever_invoke (r : Retriever Vec) (q : string)
    : Exception + list string :=
  retrieve (vectorstore r) q (search_k r).

End Retrieval.

(** ** A concrete set of collaborators

    Used to run the handlers on concrete requests. The reader takes the
    bytes of the file as the text of its single page, the splitter cuts
    nothing, vectors are the lengths of the chunks and the chain echoes the
    question. *)

Module Demo.

Definition Vec : Type := nat.

Definition pdf_pages (data : list byte) : Exception + list string :=
  inr [string_of_list_byte data].

Definition OPENAI_API_KEY : option string := Some "sk-test".

Definition split_text (txt : string) : list string := [txt].

Definition embed_documents (tick : nat) (texts : list string)
  : Exception + list Vec :=
  inr (map String.length texts).

(** An embedding provider that cannot be reached. *)
Definition embed_down (tick : nat) (texts : list string)
  : Exception + list Vec :=
  inl (OtherError "Connection error.").

Definition embed_query (q : string) : Exception + Vec :=
  inr (String.length q).

(** Similarity of two lengths: the closer the lengths, the higher. *)
Definition similarity (a b : Vec) : nat := 1000 - ((a - b) + (b - a)).

Definition hello : list Message :=
  [ {| role := "user"; content := "hi" |};
    {| role := "assistant"; content := "hello" |} ].

Definition parse_chat_history (s : string) : Exception + list Message :=
  if String.eqb s "[]" then inr []
  else if String.eqb s "hello" then inr hello
  else inl (ValueError "Expecting value: line 1 column 1 (char 0)").

Definition exc_str (e : Exception) : string :=
  match e with
  | HTTPException status_code detail =>
      PyStr.of_nat status_code ++ ": " ++ detail
  | ValueError msg => msg
  | KeyError key => "'" ++ key ++ "'"
  | OtherError msg => msg
  end.

Definition chain_ainvoke (tick : nat) (chain : Chain Vec) (q : string)
  : Exception + Dict.t Value :=
  inr [("input", VStr q); ("answer", VStr ("You asked: " ++ q))].

(** A chain whose result carries no answer. *)
Definition chain_silent (tick : nat) (chain : Chain Vec) (q : string)
  : Exception + Dict.t Value :=
  inr [("input", VStr q)].

(** The bytes of an ASCII text. *)
Definition bytes (s : string) : list byte := list_byte_of_string s.

Definition report : UploadFile :=
  {| filename := "report.pdf"; file_bytes := bytes "Annual report" |}.

(** A file whose pages carry no text. *)
Definition blank : UploadFile :=
  {| filename := "blank.pdf"; file_bytes := bytes "  " |}.

Definition empty_upload : UploadFile :=
  {| filename := "empty.pdf"; file_bytes := [] |}.

Definition st0 : State := {| vectorstore_cache := Dict.empty; calls := [] |}.

(** A vector store of four chunks. *)
Definition store : FAISS Vec :=
  {| entries := [ ({| page_content := "Revenue grew." |}, 13);
                  ({| page_content := "Costs" |}, 5);
                  ({| page_content := "Outlook is stable" |}, 17);
                  ({| page_content := "Staff" |}, 5) ] |}.

Definition index_pdf := index_pdf pdf_pages exc_str.
Definition query_gen :=
  query OPENAI_API_KEY split_text embed_documents parse_chat_history exc_str.
Definition query := query_gen chain_ainvoke.
Definition retrieve := retrieve Nat.leb similarity embed_query.

(** [query] over a chain whose result carries no answer. *)
Definition query_silent :=
  query_gen chain_silent.

(** The state after [report] has been indexed under ["doc1"]. *)
Definition st1 : State := snd (index_pdf "doc1" report st0).

End Demo.

(** ** Start-up, authentication and the life of the cache *)

(** The module-level check of [main.py]: [AGENT_API_KEY] is read from the
    environment and the module raises when it is unset or empty. *)
Definition load_agent_api_key (env : option string) : Exception + string :=
  match env with
  | Some key =>
      if PyStr.truthy key then inr key
      else inl (ValueError "AGENT_API_KEY not set in environment variables")
  | None => inl (ValueError "AGENT_API_KEY not set in environment variables")
  end.

(** The state at process start: [vectorstore_cache = {}]. *)
Definition initial_state : State :=
  {| vectorstore_cache := Dict.empty; calls := [] |}.

(** One entry of the [files] list of [cache_stats]. *)
Definition file_summary (item : string * CacheEntry) : FileSummary :=
  let '(file_id, info) := item in
  {| sum_file_id := file_id;
     sum_name := file_name info;
     sum_text_length := text_length info |}.

(** Every character of [s] is white space. *)
Fixpoint all_space (s : string) : bool :=
  match s with
  | EmptyString => true
  | String c s' => PyStr.isspace c && all_space s'
  end.

(** The first and the last character of a string. *)
Definition first_char (s : string) : option ascii :=
  match s with
  | EmptyString => None
  | String c _ => Some c
  end.

Fixpoint last_char (s : string) : option ascii :=
  match s with
  | EmptyString => None
  | String c EmptyString => Some c
  | String _ s' => last_char s'
  end.

Section Lifecycle.

Variable Vec : Type.
Variable pdf_pages : list byte -> Exception + list string.
Variable OPENAI_API_KEY : option string.
Variable split_text : string -> list string.
Variable embed_documents : nat -> list string -> Exception + list Vec.
Variable parse_chat_history : string -> Exception + list Message.
Variable exc_str : Exception -> string.
Variable chain_ainvoke : nat -> Chain Vec -> string -> Exception + Dict.t Value.

(** One request served: the state before and after a handler has run,
    whether it returned or raised. *)
Inductive step : State -> State -> Prop :=
| step_index_pdf st file_id file :
    step st (snd (index_pdf pdf_pages exc_str file_id file st))
| step_query st file_id q chat_history :
    step st (snd (query OPENAI_API_KEY split_text embed_documents
                     parse_chat_history exc_str chain_ainvoke
                     file_id q chat_history st))
| step_delete_from_cache st file_id :
    step st (snd (delete_from_cache file_id st))
| step_health_check st : step st (snd (health_check st))
| step_cache_stats st : step st (snd (cache_stats st))
| step_clear_cache st : step st (snd (clear_cache st)).

(** The states the process can be in: the state at start, and any state a
    request leads to from one of them. *)
Inductive reachable : State -> Prop :=
| reachable_start : reachable initial_state
| reachable_step st st' : reachable st -> step st st' -> reachable st'.

End Lifecycle.

(** * Properties *)

Unset Implicit Arguments.

(** ** Dictionaries *)

Section DictFacts.
Variable V : Type.
Implicit Types (d : Dict.t V) (k : string) (v : V).

Lemma dict_contains_true d k :
  Dict.contains d k = true <-> exists v, Dict.get d k = Some v.
Proof.
  unfold Dict.contains. destruct (Dict.get d k) as [v|]; split.
  - intros _. now exists v.
  - reflexivity.
  - discriminate.
  - intros [v Hv]. discriminate.
Qed.

Lemma dict_contains_false d k :
  Dict.contains d k = false <-> Dict.get d k = None.
Proof.
  unfold Dict.contains. destruct (Dict.get d k); split;
    congruence || reflexivity.
Qed.

Lemma dict_get_in_keys d k v :
  Dict.get d k = Some v -> In k (Dict.keys d).
Proof.
  induction d as [|[k' v'] d IH]; simpl; [discriminate|].
  destruct (String.eqb_spec k' k); auto.
Qed.

Lemma dict_get_not_in_keys d k :
  Dict.get d k = None <-> ~ In k (Dict.keys d).
Proof.
  induction d as [|[k' v'] d IH]; simpl.
  - tauto.
  - destruct (String.eqb_spec k' k) as [->|Hne].
    + split; [discriminate | intros H; exfalso; apply H; now left].
    + rewrite IH. tauto.
Qed.

Lemma dict_get_set_same d k v : Dict.get (Dict.set d k v) k = Some v.
Proof.
  induction d as [|[k' v'] d IH]; simpl.
  - now rewrite String.eqb_refl.
  - destruct (String.eqb k' k) eqn:E; simpl; rewrite E; auto.
Qed.

Lemma dict_get_set_other d k k' v :
  k <> k' -> Dict.get (Dict.set d k v) k' = Dict.get d k'.
Proof.
  intros Hne. induction d as [|[k0 v0] d IH]; simpl.
  - destruct (String.eqb_spec k k'); congruence.
  - destruct (String.eqb_spec k0 k) as [->|H0]; simpl.
    + destruct (String.eqb_spec k k'); congruence.
    + now rewrite IH.
Qed.

(** Assignment to an absent key appends: the new entry comes last in
    iteration order. *)
Lemma dict_set_absent d k v :
  Dict.get d k = None -> Dict.set d k v = (d ++ [(k, v)])%list.
Proof.
  induction d as [|[k' v'] d IH]; simpl; [reflexivity|].
  destruct (String.eqb k' k); [discriminate|].
  intros H. now rewrite IH.
Qed.

Lemma dict_keys_set_present d k v v0 :
  Dict.get d k = Some v0 -> Dict.keys (Dict.set d k v) = Dict.keys d.
Proof.
  induction d as [|[k' v'] d IH]; simpl; [discriminate|].
  destruct (String.eqb k' k); simpl; [reflexivity|].
  intros H. f_equal. now apply IH.
Qed.

Lemma dict_wf_empty : Dict.wf (@Dict.empty V).
Proof. constructor. Qed.

Lemma dict_wf_set d k v : Dict.wf d -> Dict.wf (Dict.set d k v).
Proof.
  unfold Dict.wf. intros Hwf.
  destruct (Dict.get d k) as [v0|] eqn:E.
  - now rewrite (dict_keys_set_present d k v v0 E).
  - rewrite (dict_set_absent d k v E). unfold Dict.keys.
    rewrite map_app. simpl.
    apply NoDup_app; [exact Hwf | repeat constructor; auto | ].
    intros x Hx [<-|[]]. now apply dict_get_not_in_keys in E.
Qed.

Lemma dict_get_filter_same d k :
  Dict.get (filter (fun p => negb (String.eqb (fst p) k)) d) k = None.
Proof.
  induction d as [|[k' v'] d IH]; simpl; [reflexivity|].
  destruct (String.eqb k' k) eqn:E; simpl; [exact IH|].
  now rewrite E.
Qed.

Lemma dict_get_filter_other d k k' :
  k <> k' ->
  Dict.get (filter (fun p => negb (String.eqb (fst p) k)) d) k'
  = Dict.get d k'.
Proof.
  intros Hne. induction d as [|[k0 v0] d IH]; simpl; [reflexivity|].
  destruct (String.eqb_spec k0 k) as [->|H0]; simpl.
  - destruct (String.eqb_spec k k'); congruence.
  - now rewrite IH.
Qed.

Lemma dict_del_absent d k : Dict.get d k = None -> Dict.del d k = None.
Proof.
  intros H. unfold Dict.del. apply dict_contains_false in H. now rewrite H.
Qed.

Lemma dict_del_present d k v :
  Dict.get d k = Some v ->
  exists d', Dict.del d k = Some d'
             /\ Dict.get d' k = None
             /\ forall k', k <> k' -> Dict.get d' k' = Dict.get d k'.
Proof.
  intros H. unfold Dict.del.
  assert (Hc : Dict.contains d k = true)
    by (apply dict_contains_true; eauto).
  rewrite Hc. eexists. split; [reflexivity|]. split.
  - apply dict_get_filter_same.
  - intros k' Hne. now apply dict_get_filter_other.
Qed.

Lemma dict_wf_del d k d' : Dict.wf d -> Dict.del d k = Some d' -> Dict.wf d'.
Proof.
  unfold Dict.wf, Dict.del. intros Hwf.
  destruct (Dict.contains d k); [|discriminate].
  intros [= <-].
  induction d as [|[k0 v0] d IH]; simpl; [constructor|].
  simpl in Hwf. inversion Hwf as [|? ? Hnin Hnd]; subst.
  destruct (negb (String.eqb k0 k)); simpl; auto.
  constructor; auto.
  intros Hin. apply Hnin. unfold Dict.keys in Hin.
  apply in_map_iff in Hin as [[k1 v1] [Hk Hin]]. simpl in Hk. subst k1.
  apply filter_In in Hin as [Hin _].
  change k0 with (fst (k0, v1)). now apply in_map.
Qed.

(** With unique keys, deleting a present key removes exactly one entry. *)
Lemma dict_len_del d k d' :
  Dict.wf d -> Dict.del d k = Some d' -> S (Dict.len d') = Dict.len d.
Proof.
  unfold Dict.wf, Dict.del, Dict.len, Dict.contains.
  intros Hwf. destruct (Dict.get d k) as [v|] eqn:E; [|discriminate].
  intros [= <-].
  induction d as [|[k0 v0] d IH]; simpl in *; [discriminate|].
  inversion Hwf as [|? ? Hnin Hnd]; subst.
  destruct (String.eqb_spec k0 k) as [->|Hne]; simpl.
  - f_equal. clear IH E Hwf Hnd.
    induction d as [|[k1 v1] d IH]; simpl; [reflexivity|].
    simpl in Hnin.
    destruct (String.eqb_spec k1 k) as [->|Hne1]; simpl.
    + exfalso. apply Hnin. now left.
    + f_equal. apply IH. tauto.
  - f_equal. now apply IH.
Qed.

End DictFacts.

(** ** The handlers *)

(** Unfold a handler down to the state it runs in. *)
Ltac run :=
  unfold index_pdf, index_pdf_try, query, query_try, delete_from_cache,
    clear_cache, cache_stats, health_check, extract_text_from_pdf,
    create_pdf_chain, create_faiss_index, FAISS_from_documents,
    try_except, bind, ret, raise, lift, get_cache, put_cache, log_call;
  simpl.

Lemma truthy_false_iff s : PyStr.truthy s = false <-> s = "".
Proof. destruct s; simpl; split; congruence. Qed.

Lemma truthy_true_iff s : PyStr.truthy s = true <-> s <> "".
Proof. destruct s; simpl; split; congruence. Qed.

Section ServiceFacts.

Variable Vec : Type.
Variable pdf_pages : list byte -> Exception + list string.
Variable OPENAI_API_KEY : option string.
Variable split_text : string -> list string.
Variable embed_documents : nat -> list string -> Exception + list Vec.
Variable parse_chat_history : string -> Exception + list Message.
Variable exc_str : Exception -> string.
Variable chain_ainvoke : nat -> Chain Vec -> string -> Exception + Dict.t Value.

Local Abbreviation index_pdf_try' := (index_pdf_try pdf_pages).
Local Abbreviation index_pdf' := (index_pdf pdf_pages exc_str).
Local Abbreviation query' :=
  (query OPENAI_API_KEY split_text embed_documents parse_chat_history
         exc_str chain_ainvoke).

(** *** [index_pdf], path by path *)

Lemma index_pdf_try_empty_upload st file_id file :
  file_bytes file = [] ->
  index_pdf_try' file_id file st = (inl (HTTPException 400 "Empty file"), st).
Proof. intros H. run. now rewrite H. Qed.

Lemma index_pdf_try_present st file_id file :
  file_bytes file <> [] ->
  Dict.contains (vectorstore_cache st) file_id = true ->
  index_pdf_try' file_id file st
  = (inr {| resp_file_id := file_id;
            resp_file_name := filename file;
            resp_text_length := None;
            already_indexed := true |}, st).
Proof.
  intros Hne Hin. run. destruct (file_bytes file); [congruence|].
  now rewrite Hin.
Qed.

Lemma index_pdf_try_reader_raises st file_id file e :
  file_bytes file <> [] ->
  Dict.contains (vectorstore_cache st) file_id = false ->
  pdf_pages (file_bytes file) = inl e ->
  index_pdf_try' file_id file st
  = (inl e, logged st (CallPdfReader (file_bytes file))).
Proof.
  intros Hne Hin Hp. run. unfold logged.
  destruct (file_bytes file) eqn:Eb; [congruence|].
  rewrite Hin. simpl. now rewrite Hp.
Qed.

Lemma index_pdf_try_no_text st file_id file pages :
  file_bytes file <> [] ->
  Dict.contains (vectorstore_cache st) file_id = false ->
  pdf_pages (file_bytes file) = inr pages ->
  page_text pages = "" ->
  index_pdf_try' file_id file st
  = (inl (HTTPException 400 "Could not extract text from PDF"),
     logged st (CallPdfReader (file_bytes file))).
Proof.
  intros Hne Hin Hp Ht. run. unfold logged, page_text in *.
  destruct (file_bytes file) eqn:Eb; [congruence|].
  rewrite Hin. simpl. rewrite Hp. simpl. now rewrite Ht.
Qed.

Lemma index_pdf_try_stores st file_id file pages :
  file_bytes file <> [] ->
  Dict.contains (vectorstore_cache st) file_id = false ->
  pdf_pages (file_bytes file) = inr pages ->
  page_text pages <> "" ->
  index_pdf_try' file_id file st
  = (inr {| resp_file_id := file_id;
            resp_file_name := filename file;
            resp_text_length := Some (String.length (page_text pages));
            already_indexed := false |},
     {| vectorstore_cache :=
          Dict.set (vectorstore_cache st) file_id
            {| text := page_text pages;
               file_name := filename file;
               text_length := String.length (page_text pages) |};
        calls := (calls st ++ [CallPdfReader (file_bytes file)])%list |}).
Proof.
  intros Hne Hin Hp Ht. run. unfold page_text in *.
  destruct (file_bytes file) eqn:Eb; [congruence|].
  rewrite Hin. simpl. rewrite Hp. simpl.
  apply truthy_true_iff in Ht. now rewrite Ht.
Qed.

(** [index_pdf] is its body with every exception, whatever its kind,
    turned into a 500. *)
Lemma index_pdf_of_try st file_id file :
  index_pdf' file_id file st
  = match index_pdf_try' file_id file st with
    | (inr r, st') => (inr r, st')
    | (inl e, st') => (inl (HTTPException 500 (exc_str e)), st')
    end.
Proof.
  unfold index_pdf, try_except.
  destruct (index_pdf_try' file_id file st) as [[e|r] st']; reflexivity.
Qed.

(** What a successful [index_pdf] on an absent file id has done. *)
Lemma index_pdf_new_id_success st file_id file r st' :
  Dict.get (vectorstore_cache st) file_id = None ->
  index_pdf' file_id file st = (inr r, st') ->
  file_bytes file <> []
  /\ exists pages,
       pdf_pages (file_bytes file) = inr pages
       /\ page_text pages <> ""
       /\ vectorstore_cache st'
          = Dict.set (vectorstore_cache st) file_id
              {| text := page_text pages;
                 file_name := filename file;
                 text_length := String.length (page_text pages) |}
       /\ r = {| resp_file_id := file_id;
                 resp_file_name := filename file;
                 resp_text_length := Some (String.length (page_text pages));
                 already_indexed := false |}
       /\ calls st' = (calls st ++ [CallPdfReader (file_bytes file)])%list.
Proof.
  intros Habs Hrun.
  assert (Hc : Dict.contains (vectorstore_cache st) file_id = false)
    by now apply dict_contains_false.
  rewrite index_pdf_of_try in Hrun.
  destruct (file_bytes file) as [|b bs] eqn:Eb.
  { rewrite (index_pdf_try_empty_upload st file_id file Eb) in Hrun.
    discriminate. }
  assert (Hne : file_bytes file <> []) by (rewrite Eb; discriminate).
  split; [discriminate|]. rewrite <- Eb in *.
  destruct (pdf_pages (file_bytes file)) as [e|pages] eqn:Ep.
  { rewrite (index_pdf_try_reader_raises st file_id file e Hne Hc Ep)
      in Hrun. discriminate. }
  exists pages. split; [reflexivity|].
  destruct (page_text pages) as [|c s] eqn:Et.
  { rewrite (index_pdf_try_no_text st file_id file pages Hne Hc Ep Et)
      in Hrun. discriminate. }
  assert (Ht : page_text pages <> "") by (rewrite Et; discriminate).
  rewrite <- Et in *. split; [exact Ht|].
  rewrite (index_pdf_try_stores st file_id file pages Hne Hc Ep Ht) in Hrun.
  injection Hrun as <- <-. simpl. auto.
Qed.


(** C2, as amended. Two [index_pdf] calls with the same file id, the
    first one succeeding on an id that was not in the cache. The first
    reports [already_indexed = false] and the length of the text it
    stored. The second, whatever it uploads, leaves the whole state as it
    was: the record, and so its [text_length], is untouched and no
    collaborator is called. For an upload that carries bytes it reports
    [already_indexed = true]; for an upload without bytes it raises, the
    "Empty file" check coming before the look-up of the id. *)
Theorem index_pdf_twice_same_id st file_id file1 r1 st1 :
  Dict.get (vectorstore_cache st) file_id = None ->
  index_pdf' file_id file1 st = (inr r1, st1) ->
  already_indexed r1 = false
  /\ exists info,
       Dict.get (vectorstore_cache st1) file_id = Some info
       /\ resp_text_length r1 = Some (text_length info)
       /\ forall file2,
            snd (index_pdf' file_id file2 st1) = st1
            /\ Dict.get
                 (vectorstore_cache (snd (index_pdf' file_id file2 st1)))
                 file_id = Some info
            /\ (file_bytes file2 <> [] ->
                fst (index_pdf' file_id file2 st1)
                = inr {| resp_file_id := file_id;
                         resp_file_name := filename file2;
                         resp_text_length := None;
                         already_indexed := true |})
            /\ (file_bytes file2 = [] ->
                fst (index_pdf_try' file_id file2 st1)
                = inl (HTTPException 400 "Empty file")
                /\ exists e, fst (index_pdf' file_id file2 st1) = inl e).
Proof.
  intros Habs Hrun1.
  destruct (index_pdf_new_id_success st file_id file1 r1 st1 Habs Hrun1)
    as (_ & pages & _ & _ & Hcache & -> & _).
  split; [reflexivity|].
  assert (Hget : Dict.get (vectorstore_cache st1) file_id
                 = Some {| text := page_text pages;
                           file_name := filename file1;
                           text_length := String.length (page_text pages) |})
    by (rewrite Hcache; apply dict_get_set_same).
  eexists. split; [exact Hget|]. split; [reflexivity|].
  intros file2.
  assert (Hin : Dict.contains (vectorstore_cache st1) file_id = true)
    by (apply dict_contains_true; eauto).
  rewrite index_pdf_of_try.
  destruct (file_bytes file2) as [|b bs] eqn:Eb.
  - rewrite (index_pdf_try_empty_upload st1 file_id file2 Eb). simpl.
    split; [reflexivity|]. split; [exact Hget|].
    split; [congruence|]. intros _. split; [reflexivity|]. eauto.
  - assert (Hne : file_bytes file2 <> []) by (rewrite Eb; discriminate).
    rewrite (index_pdf_try_present st1 file_id file2 Hne Hin). simpl.
    split; [reflexivity|]. split; [exact Hget|].
    split; [reflexivity|]. discriminate.
Qed.

(** [index_pdf] leaves the cache as it was whenever it raises. *)
Lemma index_pdf_raise_keeps_cache st file_id file e st' :
  index_pdf' file_id file st = (inl e, st') ->
  vectorstore_cache st' = vectorstore_cache st.
Proof.
  rewrite index_pdf_of_try. intros Hrun.
  destruct (file_bytes file) as [|b bs] eqn:Eb.
  { rewrite (index_pdf_try_empty_upload st file_id file Eb) in Hrun.
    now injection Hrun as _ <-. }
  assert (Hne : file_bytes file <> []) by (rewrite Eb; discriminate).
  destruct (Dict.contains (vectorstore_cache st) file_id) eqn:Hc.
  { rewrite (index_pdf_try_present st file_id file Hne Hc) in Hrun.
    discriminate. }
  destruct (pdf_pages (file_bytes file)) as [e0|pages] eqn:Ep.
  { rewrite (index_pdf_try_reader_raises st file_id file e0 Hne Hc Ep)
      in Hrun. now injection Hrun as _ <-. }
  destruct (page_text pages) as [|c s] eqn:Et.
  { rewrite (index_pdf_try_no_text st file_id file pages Hne Hc Ep Et)
      in Hrun. now injection Hrun as _ <-. }
  assert (Ht : page_text pages <> "") by (rewrite Et; discriminate).
  rewrite (index_pdf_try_stores st file_id file pages Hne Hc Ep Ht) in Hrun.
  discriminate.
Qed.

(** C3, as amended. For a file whose extracted text is empty, [index_pdf]
    never changes the cache, so [cache_stats] reports what it reported
    before; it raises when the file id is not in the cache (the body of
    the handler raises the 400 error of the empty-text check) or when the
    upload has no bytes; when the file id is in the cache and the upload
    has bytes it raises nothing and reports [already_indexed = true]. *)
Theorem index_pdf_empty_text st file_id file pages :
  pdf_pages (file_bytes file) = inr pages ->
  page_text pages = "" ->
  vectorstore_cache (snd (index_pdf' file_id file st)) = vectorstore_cache st
  /\ fst (cache_stats (snd (index_pdf' file_id file st)))
     = fst (cache_stats st)
  /\ (file_bytes file = [] \/ Dict.get (vectorstore_cache st) file_id = None ->
      exists e, fst (index_pdf' file_id file st) = inl e)
  /\ (file_bytes file <> [] ->
      Dict.get (vectorstore_cache st) file_id = None ->
      fst (index_pdf_try' file_id file st)
      = inl (HTTPException 400 "Could not extract text from PDF"))
  /\ (file_bytes file <> [] ->
      Dict.get (vectorstore_cache st) file_id <> None ->
      index_pdf' file_id file st
      = (inr {| resp_file_id := file_id;
                resp_file_name := filename file;
                resp_text_length := None;
                already_indexed := true |}, st)).
Proof.
  intros Ep Et.
  assert (Hcache :
    vectorstore_cache (snd (index_pdf' file_id file st))
    = vectorstore_cache st).
  { rewrite index_pdf_of_try.
    destruct (file_bytes file) as [|b bs] eqn:Eb.
    { now rewrite (index_pdf_try_empty_upload st file_id file Eb). }
    assert (Hne : file_bytes file <> []) by (rewrite Eb; discriminate).
    rewrite <- Eb in *.
    destruct (Dict.contains (vectorstore_cache st) file_id) eqn:Hc.
    - now rewrite (index_pdf_try_present st file_id file Hne Hc).
    - now rewrite (index_pdf_try_no_text st file_id file pages Hne Hc Ep Et). }
  split; [exact Hcache|]. split.
  { unfold cache_stats, bind, get_cache, ret. simpl. now rewrite Hcache. }
  split; [|split].
  - intros [Eb|Habs]; rewrite index_pdf_of_try.
    + rewrite (index_pdf_try_empty_upload st file_id file Eb). simpl. eauto.
    + destruct (file_bytes file) as [|b bs] eqn:Eb.
      { rewrite (index_pdf_try_empty_upload st file_id file Eb).
        simpl. eauto. }
      assert (Hne : file_bytes file <> []) by (rewrite Eb; discriminate).
      rewrite <- Eb in *. apply dict_contains_false in Habs.
      rewrite (index_pdf_try_no_text st file_id file pages Hne Habs Ep Et).
      simpl. eauto.
  - intros Hne Habs. apply dict_contains_false in Habs.
    now rewrite (index_pdf_try_no_text st file_id file pages Hne Habs Ep Et).
  - intros Hne Hpres. rewrite index_pdf_of_try.
    assert (Hc : Dict.contains (vectorstore_cache st) file_id = true).
    { destruct (Dict.contains (vectorstore_cache st) file_id) eqn:Hc;
        [reflexivity|]. apply dict_contains_false in Hc. contradiction. }
    now rewrite (index_pdf_try_present st file_id file Hne Hc).
Qed.

(** *** [query], path by path *)

Local Abbreviation create_faiss_index' :=
  (create_faiss_index split_text embed_documents).
Local Abbreviation create_pdf_chain' :=
  (create_pdf_chain OPENAI_API_KEY split_text embed_documents).

Lemma map_page_content chunks :
  map page_content (map (fun chunk => {| page_content := chunk |}) chunks)
  = chunks.
Proof. induction chunks; simpl; congruence. Qed.

(** Building the index of a non-empty text: the text is split, and the
    chunks, if there are any, are embedded. *)
Lemma create_faiss_index_run txt st :
  txt <> "" ->
  create_faiss_index' txt st
  = let st1 := logged st (CallSplitText txt) in
    match split_text txt with
    | [] =>
        (inl (ValueError "Text was too short to be split into chunks."), st1)
    | chunks =>
        let st2 := logged st1 (CallEmbedDocuments chunks) in
        match embed_documents (List.length (calls st1)) chunks with
        | inl e => (inl e, st2)
        | inr vecs =>
            (inr {| entries :=
                      combine
                        (map (fun chunk => {| page_content := chunk |}) chunks)
                        vecs |}, st2)
        end
    end.
Proof.
  intros Ht. apply truthy_true_iff in Ht. run. rewrite Ht. simpl.
  destruct (split_text txt) as [|c cs] eqn:Es; [reflexivity|].
  change (c :: map page_content
                 (map (fun chunk => {| page_content := chunk |}) cs))
    with (map page_content
            (map (fun chunk => {| page_content := chunk |}) (c :: cs))).
  rewrite map_page_content. unfold logged. simpl.
  destruct (embed_documents _ (c :: cs)); reflexivity.
Qed.

Lemma create_faiss_index_cache txt st :
  vectorstore_cache (snd (create_faiss_index' txt st)) = vectorstore_cache st.
Proof.
  run. destruct (PyStr.truthy txt); simpl; [|reflexivity].
  destruct (split_text txt); simpl; [reflexivity|].
  destruct (embed_documents _ _); reflexivity.
Qed.

Lemma create_pdf_chain_cache txt st :
  vectorstore_cache (snd (create_pdf_chain' txt st)) = vectorstore_cache st.
Proof.
  unfold create_pdf_chain.
  destruct (key_truthy OPENAI_API_KEY); simpl; [|reflexivity].
  unfold bind.
  pose proof (create_faiss_index_cache txt st) as H.
  destruct (create_faiss_index' txt st) as [[e|vs] st']; exact H.
Qed.

Lemma create_pdf_chain_run txt st :
  key_truthy OPENAI_API_KEY = true ->
  create_pdf_chain' txt st
  = match create_faiss_index' txt st with
    | (inl e, st') => (inl e, st')
    | (inr vs, st') => (inr (rag_chain vs), st')
    end.
Proof.
  intros Hk. unfold create_pdf_chain, bind, ret. rewrite Hk. simpl.
  destruct (create_faiss_index' txt st) as [[e|vs] st']; reflexivity.
Qed.

Lemma query_absent st file_id q chat_history :
  Dict.get (vectorstore_cache st) file_id = None ->
  query' file_id q chat_history st
  = (inl (HTTPException 404 "File not indexed. Call /index_pdf first."), st).
Proof.
  intros Habs. apply dict_contains_false in Habs. run. now rewrite Habs.
Qed.

(** A query on an indexed file id with a well-formed history: the chain
    is created from the cached text, then invoked on the full query. *)
Lemma query_indexed st file_id q chat_history cached messages :
  Dict.get (vectorstore_cache st) file_id = Some cached ->
  parse_chat_history chat_history = inr messages ->
  query' file_id q chat_history st
  = match create_pdf_chain' (text cached) st with
    | (inl e, st2) => (inl (http_or_500 exc_str e), st2)
    | (inr chain, st2) =>
        let fq := full_query messages q in
        let st3 := logged st2 (CallAInvoke fq) in
        match chain_ainvoke (List.length (calls st2)) chain fq with
        | inl e => (inl (http_or_500 exc_str e), st3)
        | inr result => (inr {| response := answer_of result |}, st3)
        end
    end.
Proof.
  intros Hget Hparse.
  assert (Hc : Dict.contains (vectorstore_cache st) file_id = true)
    by (apply dict_contains_true; eauto).
  unfold query, query_try, try_except, bind, get_cache, lift, ret, raise,
    log_call, logged.
  rewrite Hc, Hparse, Hget. simpl.
  destruct (create_pdf_chain' (text cached) st) as [[e|chain] st2];
    [reflexivity|]. simpl.
  destruct (chain_ainvoke _ chain _); reflexivity.
Qed.

(** *** Invariants of the cache *)

(** What [index_pdf] can do to the cache: nothing, or one assignment of a
    record with a non-empty text under an absent id. *)
Lemma index_pdf_cache_cases st file_id file :
  let c := vectorstore_cache st in
  let c' := vectorstore_cache (snd (index_pdf' file_id file st)) in
  c' = c
  \/ (Dict.get c file_id = None
      /\ exists pages,
           page_text pages <> ""
           /\ c' = Dict.set c file_id
                     {| text := page_text pages;
                        file_name := filename file;
                        text_length := String.length (page_text pages) |}).
Proof.
  cbv zeta. rewrite index_pdf_of_try.
  destruct (file_bytes file) as [|b bs] eqn:Eb.
  { rewrite (index_pdf_try_empty_upload st file_id file Eb). now left. }
  assert (Hne : file_bytes file <> []) by (rewrite Eb; discriminate).
  destruct (Dict.contains (vectorstore_cache st) file_id) eqn:Hc.
  { rewrite (index_pdf_try_present st file_id file Hne Hc). now left. }
  destruct (pdf_pages (file_bytes file)) as [e|pages] eqn:Ep.
  { rewrite (index_pdf_try_reader_raises st file_id file e Hne Hc Ep).
    now left. }
  destruct (page_text pages) as [|ch s] eqn:Et.
  { rewrite (index_pdf_try_no_text st file_id file pages Hne Hc Ep Et).
    now left. }
  assert (Ht : page_text pages <> "") by (rewrite Et; discriminate).
  rewrite (index_pdf_try_stores st file_id file pages Hne Hc Ep Ht).
  right. split; [now apply dict_contains_false|]. exists pages. auto.
Qed.

Lemma cache_ok_empty : cache_ok Dict.empty.
Proof. intros file_id info H. discriminate H. Qed.

Lemma index_pdf_keeps_invariants st file_id file :
  cache_ok (vectorstore_cache st) -> Dict.wf (vectorstore_cache st) ->
  cache_ok (vectorstore_cache (snd (index_pdf' file_id file st)))
  /\ Dict.wf (vectorstore_cache (snd (index_pdf' file_id file st))).
Proof.
  intros Hok Hwf.
  destruct (index_pdf_cache_cases st file_id file)
    as [-> | (_ & pages & Ht & ->)]; [now split|].
  split; [|now apply dict_wf_set].
  intros k info. destruct (String.eqb_spec file_id k) as [<-|Hne].
  - rewrite dict_get_set_same. intros [= <-]. simpl. auto.
  - rewrite (dict_get_set_other _ _ _ _ _ Hne). apply Hok.
Qed.

(** [query] never changes the cache. *)
Lemma query_keeps_cache st file_id q chat_history :
  vectorstore_cache (snd (query' file_id q chat_history st))
  = vectorstore_cache st.
Proof.
  destruct (Dict.get (vectorstore_cache st) file_id) as [cached|] eqn:Hget.
  2: { now rewrite (query_absent st file_id q chat_history Hget). }
  destruct (parse_chat_history chat_history) as [e|messages] eqn:Hparse.
  { assert (Hc : Dict.contains (vectorstore_cache st) file_id = true)
      by (apply dict_contains_true; eauto).
    unfold query, query_try, try_except, bind, get_cache, lift, raise.
    rewrite Hc, Hparse. simpl. destruct e; reflexivity. }
  rewrite (query_indexed st file_id q chat_history cached messages
             Hget Hparse).
  pose proof (create_pdf_chain_cache (text cached) st) as Hc.
  destruct (create_pdf_chain' (text cached) st) as [[e|chain] st2];
    [exact Hc|]. simpl in *.
  destruct (chain_ainvoke _ chain _); exact Hc.
Qed.

Lemma delete_from_cache_keeps_invariants st file_id :
  cache_ok (vectorstore_cache st) -> Dict.wf (vectorstore_cache st) ->
  cache_ok (vectorstore_cache (snd (delete_from_cache file_id st)))
  /\ Dict.wf (vectorstore_cache (snd (delete_from_cache file_id st))).
Proof.
  intros Hok Hwf. run.
  destruct (Dict.contains (vectorstore_cache st) file_id) eqn:Hc;
    [|now split].
  apply dict_contains_true in Hc as [info Hget]. rewrite Hget.
  destruct (dict_del_present _ _ _ _ Hget) as (d' & Hdel & Hgone & Hother).
  rewrite Hdel. simpl. split; [|exact (dict_wf_del _ _ _ _ Hwf Hdel)].
  intros k e. destruct (String.eqb_spec file_id k) as [<-|Hne].
  - rewrite Hgone. discriminate.
  - rewrite (Hother k Hne). apply Hok.
Qed.

Lemma clear_cache_keeps_invariants st :
  cache_ok (vectorstore_cache (snd (clear_cache st)))
  /\ Dict.wf (vectorstore_cache (snd (clear_cache st))).
Proof. split; [exact cache_ok_empty | exact (dict_wf_empty _)]. Qed.

(** The 400 that [index_pdf] raises for a file without text leaves the
    handler as a 500 whose detail is the text of the 400, where [query]
    lets its own [HTTPException]s through unchanged. *)
Lemma index_pdf_no_text_status st file_id file pages :
  file_bytes file <> [] ->
  Dict.get (vectorstore_cache st) file_id = None ->
  pdf_pages (file_bytes file) = inr pages ->
  page_text pages = "" ->
  fst (index_pdf' file_id file st)
  = inl (HTTPException 500
           (exc_str (HTTPException 400 "Could not extract text from PDF"))).
Proof.
  intros Hne Habs Ep Et. apply dict_contains_false in Habs.
  rewrite index_pdf_of_try.
  now rewrite (index_pdf_try_no_text st file_id file pages Hne Habs Ep Et).
Qed.

(** C4. A query on a file id that is not in the cache raises the 404
    error "File not indexed", whatever the question and the history, and
    leaves the state, the cache with it, exactly as it was. *)
Theorem query_unknown_id_not_indexed st file_id q chat_history :
  Dict.get (vectorstore_cache st) file_id = None ->
  query' file_id q chat_history st
  = (inl (HTTPException 404 "File not indexed. Call /index_pdf first."), st)
  /\ vectorstore_cache (snd (query' file_id q chat_history st))
     = vectorstore_cache st.
Proof.
  intros Habs. rewrite (query_absent st file_id q chat_history Habs).
  split; reflexivity.
Qed.

(** C5, as amended. For an empty history the full query is the question
    itself. For a non-empty history it is the line "Previous
    conversation:", then the transcript (one line per message, in input
    order, joined by line feeds, "User: " before the content of a message
    whose role is "user" and "Assistant: " before any other), then an
    empty line, then "Current question: " followed by the question. This
    string is what the chain is invoked on. *)
Theorem full_query_format messages q :
  (messages = [] -> full_query messages q = q)
  /\ (messages <> [] ->
      full_query messages q
      = "Previous conversation:" ++ PyStr.nl
        ++ PyStr.join PyStr.nl (map history_line messages)
        ++ PyStr.nl ++ PyStr.nl ++ "Current question: " ++ q)
  /\ (forall msg,
        history_line msg
        = (if String.eqb (role msg) "user" then "User: " else "Assistant: ")
          ++ content msg)
  /\ (forall st file_id chat_history cached chain st2,
        Dict.get (vectorstore_cache st) file_id = Some cached ->
        parse_chat_history chat_history = inr messages ->
        create_pdf_chain' (text cached) st = (inr chain, st2) ->
        query' file_id q chat_history st
        = (match chain_ainvoke (List.length (calls st2)) chain
                   (full_query messages q) with
           | inl e => inl (http_or_500 exc_str e)
           | inr result => inr {| response := answer_of result |}
           end,
           logged st2 (CallAInvoke (full_query messages q)))).
Proof.
  split; [intros ->; reflexivity|]. split; [|split].
  - destruct messages; [congruence|reflexivity].
  - intros msg. unfold history_line.
    destruct (String.eqb (role msg) "user"); reflexivity.
  - intros st file_id chat_history cached chain st2 Hget Hparse Hchain.
    rewrite (query_indexed st file_id q chat_history cached messages
               Hget Hparse), Hchain. simpl.
    destruct (chain_ainvoke _ chain _); reflexivity.
Qed.

(** C7. When the chain returns a result, the query returns a response
    and raises nothing: the value under "answer" when the result has one,
    the string "No answer found." when it has none. *)
Theorem query_answer_or_fallback
    st file_id q chat_history cached messages chain st2 result :
  Dict.get (vectorstore_cache st) file_id = Some cached ->
  parse_chat_history chat_history = inr messages ->
  create_pdf_chain' (text cached) st = (inr chain, st2) ->
  chain_ainvoke (List.length (calls st2)) chain (full_query messages q)
  = inr result ->
  exists resp st',
    query' file_id q chat_history st = (inr resp, st')
    /\ (Dict.get result "answer" = None ->
        response resp = VStr "No answer found.")
    /\ (forall v, Dict.get result "answer" = Some v -> response resp = v).
Proof.
  intros Hget Hparse Hchain Hres.
  rewrite (query_indexed st file_id q chat_history cached messages
             Hget Hparse), Hchain. simpl. rewrite Hres.
  do 2 eexists. split; [reflexivity|]. simpl. unfold answer_of.
  split; [intros -> | intros v ->]; reflexivity.
Qed.

(** C8. [delete_from_cache] on a file id that is not in the cache raises
    the 404 error "File not found in cache" and changes nothing. On a
    file id that is in the cache it returns the message naming the file
    name of the removed record and removes that record and no other;
    afterwards a lookup of the id finds nothing, and both [query] and
    [delete_from_cache] on it raise their 404 error. *)
Theorem delete_from_cache_removes st file_id :
  match Dict.get (vectorstore_cache st) file_id with
  | None =>
      delete_from_cache file_id st
      = (inl (HTTPException 404 "File not found in cache"), st)
  | Some info =>
      exists st',
        delete_from_cache file_id st
        = (inr {| message := "Removed " ++ file_name info ++ " from cache" |},
           st')
        /\ Dict.get (vectorstore_cache st') file_id = None
        /\ (forall k, k <> file_id ->
              Dict.get (vectorstore_cache st') k
              = Dict.get (vectorstore_cache st) k)
        /\ calls st' = calls st
        /\ (forall q chat_history,
              query' file_id q chat_history st'
              = (inl (HTTPException 404
                        "File not indexed. Call /index_pdf first."), st'))
        /\ delete_from_cache file_id st'
           = (inl (HTTPException 404 "File not found in cache"), st')
  end.
Proof.
  destruct (Dict.get (vectorstore_cache st) file_id) as [info|] eqn:Hget.
  - destruct (dict_del_present _ _ _ _ Hget) as (d' & Hdel & Hgone & Hother).
    assert (Hc : Dict.contains (vectorstore_cache st) file_id = true)
      by (apply dict_contains_true; eauto).
    exists {| vectorstore_cache := d'; calls := calls st |}.
    split.
    { run. rewrite Hc, Hget, Hdel. reflexivity. }
    simpl. split; [exact Hgone|].
    split; [intros k Hk; apply Hother; congruence|].
    split; [reflexivity|]. split.
    + intros q chat_history. now apply query_absent.
    + run. apply dict_contains_false in Hgone. now rewrite Hgone.
  - run. apply dict_contains_false in Hget. now rewrite Hget.
Qed.


Local Abbreviation reachable' :=
  (reachable pdf_pages OPENAI_API_KEY split_text embed_documents
             parse_chat_history exc_str chain_ainvoke).

(** No state the process can reach holds a record with an empty text. *)
Lemma reachable_texts_not_empty st file_id cached :
  reachable' st ->
  Dict.get (vectorstore_cache st) file_id = Some cached ->
  text cached <> "".
Proof.
  intros Hreach.
  assert (H : Dict.wf (vectorstore_cache st)
              /\ cache_ok (vectorstore_cache st)).
  { induction Hreach as [|st st' Hreach [Hwf Hok] Hstep].
    - split; [apply dict_wf_empty | apply cache_ok_empty].
    - destruct Hstep.
      + destruct (index_pdf_keeps_invariants st file_id0 file Hok Hwf).
        now split.
      + rewrite query_keeps_cache. now split.
      + destruct (delete_from_cache_keeps_invariants st file_id0 Hok Hwf).
        now split.
      + now split.
      + now split.
      + destruct (clear_cache_keeps_invariants st). now split. }
  destruct H as [_ Hok]. intros Hget. exact (proj1 (Hok _ _ Hget)).
Qed.

Lemma logged_length st c :
  List.length (calls (logged st c)) = S (List.length (calls st)).
Proof. unfold logged. simpl. rewrite length_app. simpl. lia. Qed.

(** A query that is past its checks, whole: split, embed, invoke. *)
Lemma query_run st file_id q chat_history cached messages :
  Dict.get (vectorstore_cache st) file_id = Some cached ->
  parse_chat_history chat_history = inr messages ->
  key_truthy OPENAI_API_KEY = true ->
  text cached <> "" ->
  query' file_id q chat_history st
  = let chunks := split_text (text cached) in
    let n := List.length (calls st) in
    let fq := full_query messages q in
    let st1 := logged st (CallSplitText (text cached)) in
    let st2 := logged st1 (CallEmbedDocuments chunks) in
    match chunks with
    | [] =>
        (inl (HTTPException 500
                (exc_str
                   (ValueError
                      "Text was too short to be split into chunks."))),
         st1)
    | _ :: _ =>
        match embed_documents (S n) chunks with
        | inl e => (inl (http_or_500 exc_str e), st2)
        | inr vecs =>
            (match chain_ainvoke (S (S n))
                     (rag_chain
                        {| entries :=
                             combine
                               (map (fun chunk =>
                                       {| page_content := chunk |}) chunks)
                               vecs |})
                     fq with
             | inl e => inl (http_or_500 exc_str e)
             | inr result => inr {| response := answer_of result |}
             end,
             logged st2 (CallAInvoke fq))
        end
    end.
Proof.
  intros Hget Hparse Hkey Htext.
  rewrite (query_indexed st file_id q chat_history cached messages
             Hget Hparse).
  rewrite (create_pdf_chain_run (text cached) st Hkey).
  rewrite (create_faiss_index_run (text cached) st Htext). cbv zeta.
  rewrite ?logged_length.
  destruct (split_text (text cached)) as [|c cs]; [reflexivity|].
  destruct (embed_documents _ (c :: cs)) as [e|vecs]; [reflexivity|].
  cbv beta iota. rewrite ?logged_length.
  destruct (chain_ainvoke _ _ _); reflexivity.
Qed.


End ServiceFacts.

(** ** Retrieval *)

Section RetrievalFacts.

Variable Vec : Type.
Variable Score : Type.
Variable score_leb : Score -> Score -> bool.
Variable similarity : Vec -> Vec -> Score.
Variable embed_query : string -> Exception + Vec.

Local Abbreviation closer' := (closer score_leb similarity).
Local Abbreviation before' := (before score_leb similarity).
Local Abbreviation rank' := (rank score_leb similarity).
Local Abbreviation nearest' := (nearest score_leb similarity).
Local Abbreviation retrieve' := (retrieve score_leb similarity embed_query).

Lemma insert_hit_perm qv e l :
  Permutation (e :: l) (insert_hit score_leb similarity qv e l).
Proof.
  induction l as [|x l IH]; simpl; [apply Permutation_refl|].
  destruct (closer' qv x e); [|apply Permutation_refl].
  eapply Permutation_trans; [apply perm_swap|].
  now apply perm_skip.
Qed.

Lemma rank_perm qv l : Permutation l (rank' qv l).
Proof.
  induction l as [|e l IH]; simpl; [constructor|].
  eapply Permutation_trans; [|apply insert_hit_perm].
  now apply perm_skip.
Qed.

Lemma rank_length qv l : List.length (rank' qv l) = List.length l.
Proof. symmetry. apply Permutation_length, rank_perm. Qed.

Hypothesis score_leb_total :
  forall a b, score_leb a b = true \/ score_leb b a = true.

Lemma insert_hit_hd qv e x l :
  before' qv x e -> HdRel (before' qv) x l ->
  HdRel (before' qv) x (insert_hit score_leb similarity qv e l).
Proof.
  intros Hxe Hhd. destruct l as [|y l]; simpl; [now constructor|].
  destruct (closer' qv y e); constructor; auto.
  now inversion Hhd.
Qed.

Lemma insert_hit_sorted qv e l :
  Sorted (before' qv) l ->
  Sorted (before' qv) (insert_hit score_leb similarity qv e l).
Proof.
  induction l as [|x l IH]; simpl; intros Hs.
  - repeat constructor.
  - inversion Hs as [|? ? Hs' Hhd]; subst.
    destruct (closer' qv x e) eqn:Hc.
    + constructor; [now apply IH|]. now apply insert_hit_hd.
    + constructor; [exact Hs|]. constructor. unfold before, closer in *.
      destruct (score_leb_total (similarity qv (snd x))
                                (similarity qv (snd e))); congruence.
Qed.

Lemma rank_sorted qv l : Sorted (before' qv) (rank' qv l).
Proof.
  induction l as [|e l IH]; simpl; [constructor|].
  now apply insert_hit_sorted.
Qed.

Lemma firstn_sorted {A} (R : A -> A -> Prop) k l :
  Sorted R l -> Sorted R (firstn k l).
Proof.
  revert l. induction k as [|k IH]; intros l Hs; simpl; [constructor|].
  destruct l as [|x l]; [constructor|].
  inversion Hs as [|? ? Hs' Hhd]; subst.
  constructor; [now apply IH|].
  destruct l as [|y l]; destruct k; simpl; constructor.
  now inversion Hhd.
Qed.

(** C6. [retrieve index q k] raises only when the embedding of the query
    does; otherwise it returns the texts of entries of the index, each
    entry taken at most once, at most [k] of them and at most as many as
    the index holds (exactly the smaller of the two numbers, so an index
    with fewer than [k] chunks, or none, gives a shorter or empty result
    and no error), ordered by decreasing similarity to the query. The
    retriever the service configures has [k = 3]. *)
Theorem retrieve_at_most_k index q k :
  match retrieve' index q k with
  | inl e => embed_query q = inl e
  | inr chunks =>
      exists qv hits rest,
        embed_query q = inr qv
        /\ chunks = map (fun e => page_content (fst e)) hits
        /\ List.length chunks <= k
        /\ List.length chunks <= List.length (entries index)
        /\ List.length chunks = Nat.min k (List.length (entries index))
        /\ Sorted (before' qv) hits
        /\ Permutation (hits ++ rest) (entries index)
  end
  /\ (forall vs : FAISS Vec, search_k (get_retriever vs) = 3)
  /\ (forall (r : Retriever Vec),
        retriever_invoke score_leb similarity embed_query r q
        = retrieve' (vectorstore r) q (search_k r)).
Proof.
  split; [|split; reflexivity].
  unfold retrieve. destruct (embed_query q) as [e|qv]; [reflexivity|].
  exists qv, (nearest' index qv k),
    (skipn k (rank' qv (entries index))).
  assert (Hlen : List.length (nearest' index qv k)
                 = Nat.min k (List.length (entries index))).
  { unfold nearest. now rewrite length_firstn, rank_length. }
  rewrite length_map, Hlen.
  repeat split; try lia.
  - unfold nearest. apply firstn_sorted, rank_sorted.
  - unfold nearest. rewrite firstn_skipn.
    apply Permutation_sym, rank_perm.
Qed.

End RetrievalFacts.

(** * Concrete runs *)



(** C2, a run the claim does not survive. ["doc1"] is indexed by a first
    upload, which succeeds with [already_indexed = false]. A second call
    with the same id uploads a file without bytes: it does not report
    [already_indexed = true], it raises, because the "Empty file" check
    runs before the look-up of the id. The state is as the first call
    left it. *)
Lemma index_pdf_empty_second_upload_counterexample :
  Dict.get (vectorstore_cache Demo.st0) "doc1" = None
  /\ Demo.index_pdf "doc1" Demo.report Demo.st0
     = (inr {| resp_file_id := "doc1";
               resp_file_name := "report.pdf";
               resp_text_length := Some 13;
               already_indexed := false |}, Demo.st1)
  /\ file_bytes Demo.empty_upload = []
  /\ fst (index_pdf_try Demo.pdf_pages "doc1" Demo.empty_upload Demo.st1)
     = inl (HTTPException 400 "Empty file")
  /\ Demo.index_pdf "doc1" Demo.empty_upload Demo.st1
     = (inl (HTTPException 500 "400: Empty file"), Demo.st1)
  /\ ~ (exists r,
          fst (Demo.index_pdf "doc1" Demo.empty_upload Demo.st1) = inr r).
Proof.
  split; [reflexivity|]. split; [reflexivity|]. split; [reflexivity|].
  split; [reflexivity|]. split; [reflexivity|].
  intros [r Hr]. discriminate Hr.
Qed.

Lemma index_pdf_twice_witness :
  Dict.get (vectorstore_cache Demo.st0) "doc1" = None
  /\ file_bytes Demo.blank <> []
  /\ fst (Demo.index_pdf "doc1" Demo.report Demo.st0)
     = inr {| resp_file_id := "doc1";
              resp_file_name := "report.pdf";
              resp_text_length := Some 13;
              already_indexed := false |}
  /\ Demo.index_pdf "doc1" Demo.blank Demo.st1
     = (inr {| resp_file_id := "doc1";
               resp_file_name := "blank.pdf";
               resp_text_length := None;
               already_indexed := true |}, Demo.st1).
Proof.
  split; [reflexivity|]. split; [discriminate|]. split; [reflexivity|].
  destruct (index_pdf_twice_same_id Demo.pdf_pages Demo.exc_str
              Demo.st0 "doc1" Demo.report _ Demo.st1 eq_refl eq_refl)
    as (_ & info & _ & _ & Hsecond).
  destruct (Hsecond Demo.blank) as (Hst & _ & Hresp & _).
  specialize (Hresp ltac:(discriminate)).
  change (Demo.index_pdf "doc1" Demo.blank Demo.st1)
    with (index_pdf Demo.pdf_pages Demo.exc_str "doc1" Demo.blank Demo.st1).
  destruct (index_pdf Demo.pdf_pages Demo.exc_str "doc1" Demo.blank Demo.st1)
    as [res st2].
  simpl in Hst, Hresp. now rewrite Hst, Hresp.
Defined.

(** C3, a run the claim does not survive. ["doc1"] is in the cache; a file
    whose pages carry no text is uploaded under that id. Its extracted text
    is empty, and the call raises nothing: it reports that the file is
    already indexed. *)
Lemma index_pdf_blank_present_counterexample :
  file_bytes Demo.blank <> []
  /\ Demo.pdf_pages (file_bytes Demo.blank) = inr ["  "]
  /\ page_text ["  "] = ""
  /\ Dict.contains (vectorstore_cache Demo.st1) "doc1" = true
  /\ Demo.index_pdf "doc1" Demo.blank Demo.st1
     = (inr {| resp_file_id := "doc1";
               resp_file_name := "blank.pdf";
               resp_text_length := None;
               already_indexed := true |}, Demo.st1)
  /\ ~ (exists e, fst (Demo.index_pdf "doc1" Demo.blank Demo.st1) = inl e).
Proof.
  split; [discriminate|]. repeat split. intros [e He]. discriminate He.
Qed.

Lemma index_pdf_empty_text_witness :
  Demo.pdf_pages (file_bytes Demo.blank) = inr ["  "]
  /\ page_text ["  "] = ""
  /\ vectorstore_cache (snd (Demo.index_pdf "doc2" Demo.blank Demo.st1))
     = vectorstore_cache Demo.st1
  /\ (exists e, fst (Demo.index_pdf "doc2" Demo.blank Demo.st1) = inl e)
  /\ fst (index_pdf_try Demo.pdf_pages "doc2" Demo.blank Demo.st1)
     = inl (HTTPException 400 "Could not extract text from PDF").
Proof.
  split; [reflexivity|]. split; [reflexivity|].
  destruct (index_pdf_empty_text Demo.pdf_pages Demo.exc_str Demo.st1
              "doc2" Demo.blank ["  "] eq_refl eq_refl)
    as (Hc & _ & Hraise & Htry & _).
  split; [exact Hc|]. split.
  - apply Hraise. right. reflexivity.
  - apply Htry; [discriminate | reflexivity].
Defined.

Lemma query_unknown_id_witness :
  Dict.get (vectorstore_cache Demo.st1) "doc2" = None
  /\ Demo.query "doc2" "What?" "hello" Demo.st1
     = (inl (HTTPException 404 "File not indexed. Call /index_pdf first."),
        Demo.st1).
Proof.
  split; [reflexivity|].
  destruct (query_unknown_id_not_indexed Demo.Vec Demo.OPENAI_API_KEY
              Demo.split_text Demo.embed_documents Demo.parse_chat_history
              Demo.exc_str Demo.chain_ainvoke Demo.st1 "doc2" "What?" "hello"
              eq_refl) as [Hrun _].
  exact Hrun.
Defined.

(** C5, a run the claim does not survive. For the history "hi" / "hello"
    and the question "What?", the full query is not the transcript put in
    front of the question, with or without a separator between them: it
    starts with the line "Previous conversation:" and the question follows
    "Current question: ". *)
Lemma full_query_not_plain_prepend_counterexample :
  Demo.hello <> []
  /\ format_history_for_context Demo.hello
     = "User: hi" ++ PyStr.nl ++ "Assistant: hello"
  /\ full_query Demo.hello "What?"
     <> format_history_for_context Demo.hello ++ "What?"
  /\ ~ (exists sep,
          full_query Demo.hello "What?"
          = format_history_for_context Demo.hello ++ sep ++ "What?")
  /\ full_query Demo.hello "What?"
     = "Previous conversation:" ++ PyStr.nl
       ++ "User: hi" ++ PyStr.nl ++ "Assistant: hello"
       ++ PyStr.nl ++ PyStr.nl ++ "Current question: What?".
Proof.
  split; [discriminate|]. split; [reflexivity|]. split; [|split].
  - intros H. vm_compute in H. discriminate H.
  - intros [sep H]. cbn in H. discriminate H.
  - reflexivity.
Qed.

Lemma full_query_format_witness :
  Demo.hello <> []
  /\ full_query Demo.hello "What?"
     = "Previous conversation:" ++ PyStr.nl
       ++ PyStr.join PyStr.nl (map history_line Demo.hello)
       ++ PyStr.nl ++ PyStr.nl ++ "Current question: " ++ "What?"
  /\ full_query [] "What?" = "What?".
Proof.
  split; [discriminate|].
  destruct (full_query_format Demo.Vec Demo.OPENAI_API_KEY Demo.split_text
              Demo.embed_documents Demo.parse_chat_history Demo.exc_str
              Demo.chain_ainvoke Demo.hello "What?") as (_ & Hfull & _).
  destruct (full_query_format Demo.Vec Demo.OPENAI_API_KEY Demo.split_text
              Demo.embed_documents Demo.parse_chat_history Demo.exc_str
              Demo.chain_ainvoke [] "What?") as (Hempty & _).
  split; [apply Hfull; discriminate | apply Hempty; reflexivity].
Defined.

Lemma retrieve_at_most_k_witness :
  (forall a b, Nat.leb a b = true \/ Nat.leb b a = true)
  /\ Demo.retrieve Demo.store "four" 3 = inr ["Staff"; "Costs"; "Revenue grew."]
  /\ exists hits rest,
       List.length hits <= 3
       /\ Sorted (before Nat.leb Demo.similarity 4) hits
       /\ Permutation (hits ++ rest) (entries Demo.store).
Proof.
  assert (Htotal : forall a b, Nat.leb a b = true \/ Nat.leb b a = true).
  { intros a b. rewrite !Nat.leb_le. lia. }
  split; [exact Htotal|]. split; [reflexivity|].
  destruct (retrieve_at_most_k Demo.Vec nat Nat.leb Demo.similarity
              Demo.embed_query Htotal Demo.store "four" 3) as [Hret _].
  change (retrieve Nat.leb Demo.similarity Demo.embed_query Demo.store "four" 3)
    with (@inr Exception (list string) ["Staff"; "Costs"; "Revenue grew."])
    in Hret.
  destruct Hret as (qv & hits & rest & Hq & Hch & Hk & _ & _ & Hs & Hp).
  injection Hq as <-.
  exists hits, rest. rewrite Hch, length_map in Hk. auto.
Defined.

Lemma query_fallback_witness :
  Dict.get (vectorstore_cache Demo.st1) "doc1"
  = Some {| text := "Annual report"; file_name := "report.pdf";
            text_length := 13 |}
  /\ Demo.parse_chat_history "[]" = inr []
  /\ exists resp st',
       Demo.query_silent "doc1" "What?" "[]" Demo.st1 = (inr resp, st')
       /\ response resp = VStr "No answer found.".
Proof.
  split; [reflexivity|]. split; [reflexivity|].
  destruct (query_answer_or_fallback Demo.Vec Demo.OPENAI_API_KEY
              Demo.split_text Demo.embed_documents Demo.parse_chat_history
              Demo.exc_str Demo.chain_silent Demo.st1 "doc1" "What?" "[]"
              _ _ _ _ _ eq_refl eq_refl eq_refl eq_refl)
    as (resp & st' & Hrun & Hnone & _).
  exists resp, st'. split; [exact Hrun|]. apply Hnone. reflexivity.
Defined.

Lemma delete_from_cache_witness :
  Dict.get (vectorstore_cache Demo.st1) "doc1" <> None
  /\ exists st',
       delete_from_cache "doc1" Demo.st1
       = (inr {| message := "Removed report.pdf from cache" |}, st')
       /\ Dict.get (vectorstore_cache st') "doc1" = None
       /\ Demo.query "doc1" "What?" "[]" st'
          = (inl (HTTPException 404 "File not indexed. Call /index_pdf first."),
             st').
Proof.
  split; [discriminate|].
  destruct (delete_from_cache_removes Demo.Vec Demo.OPENAI_API_KEY
              Demo.split_text Demo.embed_documents Demo.parse_chat_history
              Demo.exc_str Demo.chain_ainvoke Demo.st1 "doc1")
    as (st' & Hrun & Hgone & _ & _ & Hquery & _).
  exists st'. split; [exact Hrun|]. split; [exact Hgone|]. apply Hquery.
Defined.


Lemma demo_st1_reachable :
  reachable Demo.pdf_pages Demo.OPENAI_API_KEY Demo.split_text
    Demo.embed_documents Demo.parse_chat_history Demo.exc_str
    Demo.chain_ainvoke Demo.st1.
Proof.
  eapply reachable_step; [apply reachable_start|].
  change Demo.st1
    with (snd (index_pdf Demo.pdf_pages Demo.exc_str "doc1" Demo.report
                 initial_state)).
  apply step_index_pdf.
Defined.


(** A few more runs of the handlers and helpers. *)

Example strip_both_ends :
  PyStr.strip ("  Annual" ++ PyStr.nl ++ "report " ++ PyStr.nl)
  = "Annual" ++ PyStr.nl ++ "report".
Proof. reflexivity. Qed.

Example page_text_skips_empty_pages :
  page_text ["Annual"; ""; "report"] = "Annual" ++ PyStr.nl ++ "report".
Proof. reflexivity. Qed.

Example empty_upload_rejected :
  Demo.index_pdf "doc1" Demo.empty_upload Demo.st1
  = (inl (HTTPException 500 "400: Empty file"), Demo.st1).
Proof. reflexivity. Qed.

Example blank_file_rejected_on_new_id :
  fst (Demo.index_pdf "doc2" Demo.blank Demo.st1)
  = inl (HTTPException 500 "400: Could not extract text from PDF").
Proof. reflexivity. Qed.

Example malformed_history_rejected :
  Demo.query "doc1" "What?" "{" Demo.st1
  = (inl (HTTPException 400
            "Invalid chat_history: Expecting value: line 1 column 1 (char 0)"),
     Demo.st1).
Proof. reflexivity. Qed.

Example query_answers :
  fst (Demo.query "doc1" "What?" "[]" Demo.st1)
  = inr {| response := VStr "You asked: What?" |}.
Proof. reflexivity. Qed.

Example stats_after_indexing :
  fst (cache_stats Demo.st1)
  = inr {| indexed_files := 1;
           files := [ {| sum_file_id := "doc1";
                         sum_name := "report.pdf";
                         sum_text_length := 13 |} ] |}.
Proof. reflexivity. Qed.

Example clear_after_indexing :
  clear_cache Demo.st1
  = (inr {| message := "Cleared 1 files from cache" |},
     {| vectorstore_cache := Dict.empty; calls := calls Demo.st1 |}).
Proof. reflexivity. Qed.

Example retrieve_from_small_index :
  Demo.retrieve Demo.store "four" 7
  = inr ["Staff"; "Costs"; "Revenue grew."; "Outlook is stable"].
Proof. reflexivity. Qed.

(** * Further properties of the handlers *)

(** ** Dictionaries, continued *)

Section DictMoreFacts.
Variable V : Type.
Implicit Types (d : Dict.t V) (k : string) (v : V).

Lemma dict_filter_absent d k :
  Dict.get d k = None ->
  filter (fun p => negb (String.eqb (fst p) k)) d = d.
Proof.
  induction d as [|[k' v'] d IH]; simpl; [reflexivity|].
  destruct (String.eqb k' k); [discriminate|]. simpl.
  intros H. now rewrite IH.
Qed.

(** Deleting the key that was assigned last to an absent key gives the
    dictionary back. *)
Lemma dict_del_set_absent d k v :
  Dict.get d k = None -> Dict.del (Dict.set d k v) k = Some d.
Proof.
  intros Habs. unfold Dict.del, Dict.contains.
  rewrite dict_get_set_same, (dict_set_absent V d k v Habs), filter_app.
  rewrite (dict_filter_absent d k Habs). simpl.
  rewrite String.eqb_refl. simpl. now rewrite app_nil_r.
Qed.

Lemma dict_len_set_absent d k v :
  Dict.get d k = None -> Dict.len (Dict.set d k v) = S (Dict.len d).
Proof.
  intros Habs. rewrite (dict_set_absent V d k v Habs). unfold Dict.len.
  rewrite length_app. simpl. lia.
Qed.

(** With unique keys, the entries are exactly what lookups find. *)
Lemma dict_in_iff_get d k v :
  Dict.wf d -> (In (k, v) d <-> Dict.get d k = Some v).
Proof.
  unfold Dict.wf. induction d as [|[k' v'] d IH]; simpl; intros Hwf.
  - split; [tauto | discriminate].
  - inversion Hwf as [|? ? Hnin Hnd]; subst.
    destruct (String.eqb_spec k' k) as [->|Hne].
    + split.
      * intros [[= <-]|Hin]; [reflexivity|].
        exfalso. apply Hnin. change k with (fst (k, v)). now apply in_map.
      * intros [= <-]. now left.
    + rewrite <- (IH Hnd). split.
      * intros [[= <- <-]|Hin]; [congruence | exact Hin].
      * intros Hin. now right.
Qed.

End DictMoreFacts.

Lemma cache_stats_run st :
  cache_stats st
  = (inr {| indexed_files := Dict.len (vectorstore_cache st);
            files := map file_summary (vectorstore_cache st) |}, st).
Proof. reflexivity. Qed.

Section MoreServiceFacts.

Variable Vec : Type.
Variable pdf_pages : list byte -> Exception + list string.
Variable OPENAI_API_KEY : option string.
Variable split_text : string -> list string.
Variable embed_documents : nat -> list string -> Exception + list Vec.
Variable parse_chat_history : string -> Exception + list Message.
Variable exc_str : Exception -> string.
Variable chain_ainvoke : nat -> Chain Vec -> string -> Exception + Dict.t Value.

Local Abbreviation index_pdf_try' := (index_pdf_try pdf_pages).
Local Abbreviation index_pdf' := (index_pdf pdf_pages exc_str).
Local Abbreviation create_faiss_index' :=
  (create_faiss_index split_text embed_documents).
Local Abbreviation create_pdf_chain' :=
  (create_pdf_chain OPENAI_API_KEY split_text embed_documents).
Local Abbreviation query' :=
  (query OPENAI_API_KEY split_text embed_documents parse_chat_history
         exc_str chain_ainvoke).
Local Abbreviation reachable' :=
  (reachable pdf_pages OPENAI_API_KEY split_text embed_documents
             parse_chat_history exc_str chain_ainvoke).

(** ** [index_pdf] *)

(** X1. Whatever makes [index_pdf] fail, the caller sees status 500: the
    exception that leaves the handler is an [HTTPException] with status
    500 whose detail is the text of the exception raised inside, the 400s
    the handler raises itself included; and the cache is as it was. *)
Theorem index_pdf_raises_only_500 st file_id file e st' :
  index_pdf' file_id file st = (inl e, st') ->
  (exists e0,
      fst (index_pdf_try' file_id file st) = inl e0
      /\ e = HTTPException 500 (exc_str e0))
  /\ vectorstore_cache st' = vectorstore_cache st.
Proof.
  intros Hrun. split.
  - rewrite index_pdf_of_try in Hrun.
    destruct (index_pdf_try' file_id file st) as [[e0|r] st0];
      [|discriminate].
    injection Hrun as <- _. exists e0. split; reflexivity.
  - exact (index_pdf_raise_keeps_cache pdf_pages exc_str st file_id file e st'
             Hrun).
Qed.

(** X2. [index_pdf] never overwrites and never removes: every record that
    was in the cache is still there, unchanged, after the call, whichever
    id and file the call was given; the cache gains at most one entry, and
    only under the id of the call. *)
Theorem index_pdf_never_overwrites st file_id file :
  let c := vectorstore_cache st in
  let c' := vectorstore_cache (snd (index_pdf' file_id file st)) in
  (forall k info, Dict.get c k = Some info -> Dict.get c' k = Some info)
  /\ (forall k, k <> file_id -> Dict.get c' k = Dict.get c k)
  /\ Dict.len c <= Dict.len c' <= S (Dict.len c).
Proof.
  cbv zeta.
  destruct (index_pdf_cache_cases pdf_pages exc_str st file_id file)
    as [-> | (Habs & pages & Ht & ->)].
  - repeat split; auto.
  - split; [|split].
    + intros k info Hget. destruct (String.eqb_spec file_id k) as [<-|Hne].
      * congruence.
      * now rewrite (dict_get_set_other _ _ _ _ _ Hne).
    + intros k Hne. apply dict_get_set_other. congruence.
    + rewrite (dict_len_set_absent _ _ _ _ Habs). lia.
Qed.

(** X3. In every state the process can reach from its start, by requests
    of any kind in any order, whether they return or raise, the cache has
    one entry per file id, no stored text is empty, and every
    [text_length] is the length of the stored text. *)
Theorem reachable_cache_invariants st :
  reachable' st ->
  Dict.wf (vectorstore_cache st) /\ cache_ok (vectorstore_cache st).
Proof.
  induction 1 as [|st st' Hreach [Hwf Hok] Hstep].
  - split; [apply dict_wf_empty | apply cache_ok_empty].
  - destruct Hstep.
    + destruct (index_pdf_keeps_invariants pdf_pages exc_str st file_id file
                  Hok Hwf). now split.
    + rewrite (query_keeps_cache Vec OPENAI_API_KEY split_text
                 embed_documents parse_chat_history exc_str chain_ainvoke).
      now split.
    + destruct (delete_from_cache_keeps_invariants st file_id Hok Hwf).
      now split.
    + now split.
    + now split.
    + destruct (clear_cache_keeps_invariants st). now split.
Qed.

(** X4. Indexing a file under an absent id and then deleting that id is a
    round trip on the cache: the deletion returns the message naming the
    uploaded file and the cache is exactly the one before the upload,
    entry for entry and in the same order. *)
Theorem index_then_delete_restores_cache st file_id file r st1 :
  Dict.get (vectorstore_cache st) file_id = None ->
  index_pdf' file_id file st = (inr r, st1) ->
  exists st2,
    delete_from_cache file_id st1
    = (inr {| message := "Removed " ++ filename file ++ " from cache" |}, st2)
    /\ vectorstore_cache st2 = vectorstore_cache st.
Proof.
  intros Habs Hrun.
  destruct (index_pdf_new_id_success pdf_pages exc_str st file_id file r st1
              Habs Hrun) as (_ & pages & _ & _ & Hcache & _ & _).
  unfold delete_from_cache, bind, get_cache, put_cache, ret.
  rewrite Hcache.
  rewrite (dict_del_set_absent _ _ _ _ Habs).
  unfold Dict.contains. rewrite dict_get_set_same. simpl.
  eexists. split; reflexivity.
Qed.

Lemma delete_from_cache_run st file_id info :
  Dict.get (vectorstore_cache st) file_id = Some info ->
  delete_from_cache file_id st
  = (inr {| message := "Removed " ++ file_name info ++ " from cache" |},
     {| vectorstore_cache :=
          filter (fun p => negb (String.eqb (fst p) file_id))
                 (vectorstore_cache st);
        calls := calls st |}).
Proof.
  intros Hget.
  unfold delete_from_cache, bind, get_cache, put_cache, ret, Dict.del,
    Dict.contains.
  now rewrite Hget.
Qed.

Lemma map_file_summary_filter c file_id :
  map file_summary
      (filter (fun p => negb (String.eqb (fst p) file_id)) c)
  = filter (fun s => negb (String.eqb (sum_file_id s) file_id))
           (map file_summary c).
Proof.
  induction c as [|[k info] c IH]; simpl; [reflexivity|].
  destruct (String.eqb k file_id); simpl; now rewrite IH.
Qed.

(** X5. Uploading a new file under an id that is already indexed keeps
    the old record; deleting the id first and uploading then stores the
    new text. The way to refresh a document is to remove it and index it
    again. *)
Theorem delete_then_index_refreshes st file_id file info pages :
  Dict.get (vectorstore_cache st) file_id = Some info ->
  file_bytes file <> [] ->
  pdf_pages (file_bytes file) = inr pages ->
  page_text pages <> "" ->
  Dict.get (vectorstore_cache (snd (index_pdf' file_id file st))) file_id
  = Some info
  /\ exists st2,
       index_pdf' file_id file (snd (delete_from_cache file_id st))
       = (inr {| resp_file_id := file_id;
                 resp_file_name := filename file;
                 resp_text_length := Some (String.length (page_text pages));
                 already_indexed := false |}, st2)
       /\ Dict.get (vectorstore_cache st2) file_id
          = Some {| text := page_text pages;
                    file_name := filename file;
                    text_length := String.length (page_text pages) |}.
Proof.
  intros Hget Hne Ep Et. split.
  - assert (Hc : Dict.contains (vectorstore_cache st) file_id = true)
      by (apply dict_contains_true; eauto).
    rewrite index_pdf_of_try.
    now rewrite (index_pdf_try_present pdf_pages st file_id file Hne Hc).
  - rewrite (delete_from_cache_run st file_id info Hget). simpl.
    rewrite index_pdf_of_try.
    rewrite (index_pdf_try_stores pdf_pages _ file_id file pages Hne);
      [| apply dict_contains_false; apply dict_get_filter_same
       | exact Ep | exact Et].
    eexists. split; [reflexivity|]. simpl. apply dict_get_set_same.
Qed.

(** X6. Right after a file was indexed under an absent id, [cache_stats]
    counts one file more and lists the new file last, after the files that
    were there, with the uploaded file name and the text length the upload
    was answered with. *)
Theorem index_then_stats_lists_new_file_last st file_id file r st1 :
  Dict.get (vectorstore_cache st) file_id = None ->
  index_pdf' file_id file st = (inr r, st1) ->
  exists n,
    resp_text_length r = Some n
    /\ cache_stats st1
       = (inr {| indexed_files := S (Dict.len (vectorstore_cache st));
                 files := (map file_summary (vectorstore_cache st)
                             ++ [ {| sum_file_id := file_id;
                                     sum_name := filename file;
                                     sum_text_length := n |} ])%list |},
          st1).
Proof.
  intros Habs Hrun.
  destruct (index_pdf_new_id_success pdf_pages exc_str st file_id file r st1
              Habs Hrun) as (_ & pages & _ & _ & Hcache & -> & _).
  eexists. split; [reflexivity|].
  rewrite cache_stats_run, Hcache.
  rewrite (dict_len_set_absent _ _ _ _ Habs).
  rewrite (dict_set_absent _ _ _ _ Habs), map_app. reflexivity.
Qed.

(** X7. [cache_stats] and [health_check] read the cache and change
    nothing. They report the same count, which is the number of files
    listed; with one entry per id in the cache, the listed ids are
    distinct and a file is listed with a name and a length exactly when
    the cache holds a record with that name and length under its id. *)
Theorem cache_stats_matches_cache st :
  Dict.wf (vectorstore_cache st) ->
  exists stats,
    cache_stats st = (inr stats, st)
    /\ health_check st
       = (inr {| health_status := "healthy";
                 health_indexed_files := indexed_files stats |}, st)
    /\ indexed_files stats = List.length (files stats)
    /\ NoDup (map sum_file_id (files stats))
    /\ forall file_id name n,
         In {| sum_file_id := file_id; sum_name := name;
               sum_text_length := n |} (files stats)
         <-> exists info,
               Dict.get (vectorstore_cache st) file_id = Some info
               /\ file_name info = name /\ text_length info = n.
Proof.
  intros Hwf. eexists. split; [apply cache_stats_run|]. simpl.
  split; [reflexivity|].
  split; [unfold Dict.len; now rewrite length_map|].
  split.
  - rewrite map_map.
    replace (map (fun x => sum_file_id (file_summary x)) (vectorstore_cache st))
      with (Dict.keys (vectorstore_cache st)); [exact Hwf|].
    unfold Dict.keys. apply map_ext. now intros [k info].
  - intros file_id name n. rewrite in_map_iff. split.
    + intros ([k info] & Hs & Hin). injection Hs as -> <- <-.
      exists info. split; [|split; reflexivity].
      now apply dict_in_iff_get.
    + intros (info & Hget & <- & <-).
      exists (file_id, info). split; [reflexivity|].
      now apply dict_in_iff_get.
Qed.

(** X8. With one entry per id in the cache, deleting an indexed id makes
    [cache_stats] count exactly one file less and list the same files in
    the same order with that id left out. *)
Theorem delete_from_cache_stats st file_id info :
  Dict.wf (vectorstore_cache st) ->
  Dict.get (vectorstore_cache st) file_id = Some info ->
  exists before after,
    fst (cache_stats st) = inr before
    /\ fst (cache_stats (snd (delete_from_cache file_id st))) = inr after
    /\ S (indexed_files after) = indexed_files before
    /\ files after
       = filter (fun s => negb (String.eqb (sum_file_id s) file_id))
                (files before)
    /\ In {| sum_file_id := file_id; sum_name := file_name info;
             sum_text_length := text_length info |} (files before).
Proof.
  intros Hwf Hget.
  rewrite (delete_from_cache_run st file_id info Hget).
  rewrite !cache_stats_run. simpl.
  do 2 eexists. split; [reflexivity|]. split; [reflexivity|]. simpl.
  split; [|split].
  - apply (dict_len_del _ (vectorstore_cache st) file_id); [exact Hwf|].
    unfold Dict.del, Dict.contains. now rewrite Hget.
  - apply map_file_summary_filter.
  - apply in_map_iff. exists (file_id, info). split; [reflexivity|].
    now apply dict_in_iff_get.
Qed.

(** X9. An upload under an id that is already indexed is never read: the
    PDF reader is not called, so whatever the bytes are (a file the reader
    would reject, a file without text) the call succeeds with
    [already_indexed = true], answers with the name of the uploaded file
    and leaves the stored record, its file name included, as it was. *)
Theorem index_pdf_present_id_skips_reader st file_id file info :
  Dict.get (vectorstore_cache st) file_id = Some info ->
  file_bytes file <> [] ->
  index_pdf' file_id file st
  = (inr {| resp_file_id := file_id;
            resp_file_name := filename file;
            resp_text_length := None;
            already_indexed := true |}, st)
  /\ calls (snd (index_pdf' file_id file st)) = calls st
  /\ Dict.get (vectorstore_cache (snd (index_pdf' file_id file st))) file_id
     = Some info.
Proof.
  intros Hget Hne.
  assert (Hc : Dict.contains (vectorstore_cache st) file_id = true)
    by (apply dict_contains_true; eauto).
  rewrite index_pdf_of_try.
  rewrite (index_pdf_try_present pdf_pages st file_id file Hne Hc).
  simpl. auto.
Qed.

(** ** [query] *)

(** X10. On an indexed id, a history that does not parse stops the query
    before anything else happens: no collaborator is called and the state
    is untouched. A [ValueError] of the parser (malformed JSON, an entry
    that is not a message) is answered with status 400 and the detail
    "Invalid chat_history: " followed by the error's text; any other
    exception of the parser that is not an [HTTPException] with status
    500. *)
Theorem query_malformed_history st file_id q chat_history cached e :
  Dict.get (vectorstore_cache st) file_id = Some cached ->
  parse_chat_history chat_history = inl e ->
  query' file_id q chat_history st
  = (inl match e with
         | ValueError _ =>
             HTTPException 400 ("Invalid chat_history: " ++ exc_str e)
         | _ => http_or_500 exc_str e
         end, st).
Proof.
  intros Hget Hparse.
  assert (Hc : Dict.contains (vectorstore_cache st) file_id = true)
    by (apply dict_contains_true; eauto).
  unfold query, query_try, try_except, bind, get_cache, lift, raise.
  rewrite Hc, Hparse. simpl. destruct e; reflexivity.
Qed.

(** X11. Without an OpenAI key (unset or empty) every query on an indexed
    id with a well-formed history fails with status 500 and the text of
    the error "OPENAI_API_KEY not found."; the text is not split, nothing
    is embedded, the chain is not invoked and the state is untouched. *)
Theorem query_missing_api_key st file_id q chat_history cached messages :
  Dict.get (vectorstore_cache st) file_id = Some cached ->
  parse_chat_history chat_history = inr messages ->
  key_truthy OPENAI_API_KEY = false ->
  query' file_id q chat_history st
  = (inl (HTTPException 500
            (exc_str (ValueError "OPENAI_API_KEY not found."))), st).
Proof.
  intros Hget Hparse Hkey.
  rewrite (query_indexed Vec OPENAI_API_KEY split_text embed_documents
             parse_chat_history exc_str chain_ainvoke
             st file_id q chat_history cached messages Hget Hparse).
  unfold create_pdf_chain, raise. now rewrite Hkey.
Qed.

(** X12. [query] never changes the cache, on any path, and whatever goes
    wrong the exception that leaves the handler is an [HTTPException]. *)
Theorem query_keeps_cache_and_raises_http st file_id q chat_history :
  let run :=
    query OPENAI_API_KEY split_text embed_documents parse_chat_history
          exc_str chain_ainvoke file_id q chat_history st in
  vectorstore_cache (snd run) = vectorstore_cache st
  /\ forall e,
       fst run = inl e ->
       exists status_code detail, e = HTTPException status_code detail.
Proof.
  cbv zeta. split.
  - apply query_keeps_cache.
  - unfold query, try_except, raise.
    destruct (query_try _ _ _ _ _ _ _ _ _ st) as [[e0|r] st'];
      simpl; [|discriminate].
    intros e [= <-]. destruct e0; simpl; eauto.
Qed.

(** X13. When the embedding provider fails while the index of a query is
    built, the query fails with the provider's exception (as it is when it
    is an [HTTPException], with status 500 and its text otherwise), after
    one call to the splitter and one to the provider; the chain is never
    invoked. *)
Theorem query_embedding_failure st file_id q chat_history cached messages e :
  Dict.get (vectorstore_cache st) file_id = Some cached ->
  parse_chat_history chat_history = inr messages ->
  key_truthy OPENAI_API_KEY = true ->
  text cached <> "" ->
  split_text (text cached) <> [] ->
  embed_documents (S (List.length (calls st))) (split_text (text cached))
  = inl e ->
  query' file_id q chat_history st
  = (inl (http_or_500 exc_str e),
     logged (logged st (CallSplitText (text cached)))
            (CallEmbedDocuments (split_text (text cached)))).
Proof.
  intros Hget Hparse Hkey Htext Hchunks Hembed.
  rewrite (query_indexed Vec OPENAI_API_KEY split_text embed_documents
             parse_chat_history exc_str chain_ainvoke
             st file_id q chat_history cached messages Hget Hparse).
  rewrite (create_pdf_chain_run Vec OPENAI_API_KEY split_text
             embed_documents (text cached) st Hkey).
  rewrite (create_faiss_index_run Vec split_text embed_documents
             (text cached) st Htext). cbv zeta.
  destruct (split_text (text cached)) as [|c cs] eqn:Es; [congruence|].
  replace (List.length (calls (logged st (CallSplitText (text cached)))))
    with (S (List.length (calls st)))
    by (unfold logged; simpl; rewrite length_app; simpl; lia).
  now rewrite Hembed.
Qed.

(** X14. When the splitter cuts no chunk out of the cached text, the query
    fails with status 500 and the text of the error "Text was too short to
    be split into chunks."; the embedding provider and the chain are never
    called. *)
Theorem query_no_chunks st file_id q chat_history cached messages :
  Dict.get (vectorstore_cache st) file_id = Some cached ->
  parse_chat_history chat_history = inr messages ->
  key_truthy OPENAI_API_KEY = true ->
  text cached <> "" ->
  split_text (text cached) = [] ->
  query' file_id q chat_history st
  = (inl (HTTPException 500
            (exc_str
               (ValueError "Text was too short to be split into chunks."))),
     logged st (CallSplitText (text cached))).
Proof.
  intros Hget Hparse Hkey Htext Hchunks.
  rewrite (query_indexed Vec OPENAI_API_KEY split_text embed_documents
             parse_chat_history exc_str chain_ainvoke
             st file_id q chat_history cached messages Hget Hparse).
  rewrite (create_pdf_chain_run Vec OPENAI_API_KEY split_text
             embed_documents (text cached) st Hkey).
  rewrite (create_faiss_index_run Vec split_text embed_documents
             (text cached) st Htext). cbv zeta.
  now rewrite Hchunks.
Qed.

(** X15. After [clear_cache] the service is as at its start for every file
    id: a query and a deletion are answered with their 404, and an upload
    with text is indexed anew. *)
Theorem clear_cache_forgets_everything st file_id :
  let st' := snd (clear_cache st) in
  (forall q chat_history,
      query' file_id q chat_history st'
      = (inl (HTTPException 404 "File not indexed. Call /index_pdf first."),
         st'))
  /\ delete_from_cache file_id st'
     = (inl (HTTPException 404 "File not found in cache"), st')
  /\ forall file pages,
       file_bytes file <> [] ->
       pdf_pages (file_bytes file) = inr pages ->
       page_text pages <> "" ->
       fst (index_pdf' file_id file st')
       = inr {| resp_file_id := file_id;
                resp_file_name := filename file;
                resp_text_length := Some (String.length (page_text pages));
                already_indexed := false |}
       /\ vectorstore_cache (snd (index_pdf' file_id file st'))
          = [(file_id, {| text := page_text pages;
                          file_name := filename file;
                          text_length := String.length (page_text pages) |})].
Proof.
  cbv zeta. split; [|split].
  - intros q chat_history. now apply query_absent.
  - reflexivity.
  - intros file pages Hne Ep Et. rewrite index_pdf_of_try.
    rewrite (index_pdf_try_stores pdf_pages _ file_id file pages Hne);
      [| reflexivity | exact Ep | exact Et].
    split; reflexivity.
Qed.

End MoreServiceFacts.

(** ** Strings *)

Lemma str_app_assoc (a b c : string) : (a ++ b) ++ c = a ++ b ++ c.
Proof. induction a as [|x a IH]; simpl; [reflexivity | now rewrite IH]. Qed.

Lemma str_app_nil_r (a : string) : a ++ "" = a.
Proof. induction a as [|x a IH]; simpl; [reflexivity | now rewrite IH]. Qed.

Lemma join_app sep (a b : list string) :
  a <> [] -> b <> [] ->
  PyStr.join sep (a ++ b) = PyStr.join sep a ++ sep ++ PyStr.join sep b.
Proof.
  intros Ha Hb. induction a as [|x a IH]; [congruence|].
  destruct a as [|y a].
  - simpl. destruct b; [congruence | reflexivity].
  - change (PyStr.join sep ((x :: y :: a) ++ b))
      with (x ++ sep ++ PyStr.join sep ((y :: a) ++ b)).
    rewrite IH by discriminate.
    change (PyStr.join sep (x :: y :: a))
      with (x ++ sep ++ PyStr.join sep (y :: a)).
    now rewrite !str_app_assoc.
Qed.

Lemma lstrip_first s c :
  first_char (PyStr.lstrip s) = Some c -> PyStr.isspace c = false.
Proof.
  induction s as [|x s IH]; simpl; [discriminate|].
  destruct (PyStr.isspace x) eqn:Ex; [exact IH|].
  simpl. now intros [= <-].
Qed.

Lemma lstrip_id s :
  (forall c, first_char s = Some c -> PyStr.isspace c = false) ->
  PyStr.lstrip s = s.
Proof.
  destruct s as [|x s]; simpl; [reflexivity|].
  intros H. now rewrite (H x eq_refl).
Qed.

Lemma rstrip_first s c :
  first_char (PyStr.rstrip s) = Some c -> first_char s = Some c.
Proof.
  destruct s as [|x s]; simpl; [discriminate|].
  destruct (PyStr.rstrip s); [destruct (PyStr.isspace x)|]; simpl;
    congruence.
Qed.

Lemma rstrip_last s c :
  last_char (PyStr.rstrip s) = Some c -> PyStr.isspace c = false.
Proof.
  induction s as [|x s IH]; simpl; [discriminate|].
  destruct (PyStr.rstrip s) as [|a r] eqn:Er.
  - destruct (PyStr.isspace x) eqn:Ex; simpl; [discriminate|].
    now intros [= <-].
  - exact IH.
Qed.

Lemma rstrip_idem s : PyStr.rstrip (PyStr.rstrip s) = PyStr.rstrip s.
Proof.
  induction s as [|x s IH]; simpl; [reflexivity|].
  destruct (PyStr.rstrip s) as [|a r] eqn:Er.
  - destruct (PyStr.isspace x) eqn:Ex; simpl; [reflexivity|].
    now rewrite Ex.
  - change (PyStr.rstrip (String x (String a r)))
      with (match PyStr.rstrip (String a r) with
            | EmptyString =>
                if PyStr.isspace x then EmptyString else String x EmptyString
            | r' => String x r'
            end).
    now rewrite IH.
Qed.

Lemma strip_first s c :
  first_char (PyStr.strip s) = Some c -> PyStr.isspace c = false.
Proof. intros H. apply rstrip_first in H. exact (lstrip_first s c H). Qed.

Lemma strip_idem s : PyStr.strip (PyStr.strip s) = PyStr.strip s.
Proof.
  unfold PyStr.strip at 1.
  rewrite (lstrip_id (PyStr.strip s)) by apply strip_first.
  apply rstrip_idem.
Qed.

Lemma all_space_app a b : all_space (a ++ b) = all_space a && all_space b.
Proof.
  induction a as [|x a IH]; simpl; [reflexivity|].
  now rewrite IH, andb_assoc.
Qed.

Lemma lstrip_all_space s : all_space s = true -> PyStr.lstrip s = "".
Proof.
  induction s as [|x s IH]; simpl; [reflexivity|].
  intros H. apply andb_true_iff in H as [Hx Hs]. now rewrite Hx, IH.
Qed.

Lemma append_pages_all_space pages acc :
  (forall p, In p pages -> all_space p = true) ->
  all_space acc = true ->
  all_space (append_pages pages acc) = true.
Proof.
  revert acc. induction pages as [|p pages IH]; simpl; intros acc Hp Hacc;
    [exact Hacc|].
  apply IH; [auto|].
  destruct (PyStr.truthy p); [|exact Hacc].
  rewrite !all_space_app, Hacc, (Hp p (or_introl eq_refl)). reflexivity.
Qed.

(** The loop of [extract_text_from_pdf] in closed form. *)
Lemma append_pages_concat pages acc :
  append_pages pages acc
  = acc ++ String.concat ""
             (map (fun p => p ++ PyStr.nl) (filter PyStr.truthy pages)).
Proof.
  revert acc. induction pages as [|p pages IH]; intros acc; simpl.
  - now rewrite str_app_nil_r.
  - rewrite IH. destruct (PyStr.truthy p); [|reflexivity]. simpl.
    rewrite !str_app_assoc.
    destruct (map _ (filter PyStr.truthy pages)) eqn:E; simpl.
    + now rewrite ?str_app_nil_r.
    + reflexivity.
Qed.

(** ** The transcript *)

(** X16. The transcript of two histories put one after the other is the
    transcript of the first, a line feed, and the transcript of the
    second: each message is rendered on its own, whatever comes before or
    after it. *)
Theorem format_history_app (a b : list Message) :
  a <> [] -> b <> [] ->
  format_history_for_context (a ++ b)
  = format_history_for_context a ++ PyStr.nl ++ format_history_for_context b.
Proof.
  intros Ha Hb. unfold format_history_for_context.
  destruct a as [|x a]; [congruence|]. destruct b as [|y b]; [congruence|].
  change ((x :: a) ++ y :: b)%list with (x :: (a ++ y :: b))%list.
  cbv iota. change (x :: (a ++ y :: b))%list with ((x :: a) ++ y :: b)%list.
  rewrite map_app. apply join_app; discriminate.
Qed.

(** X17. Message boundaries are not kept: contents are copied as they
    are, so one message whose content goes on with a line feed and the
    rendered line of a second message gives the same transcript, and the
    same full query, as the two messages. *)
Theorem full_query_merges_messages (m1 m2 : Message) (q : string) :
  let merged :=
    {| role := role m1;
       content := content m1 ++ PyStr.nl ++ history_line m2 |} in
  format_history_for_context [m1; m2] = format_history_for_context [merged]
  /\ full_query [m1; m2] q = full_query [merged] q.
Proof.
  cbv zeta.
  assert (H : format_history_for_context [m1; m2]
              = format_history_for_context
                  [{| role := role m1;
                      content := content m1 ++ PyStr.nl ++ history_line m2 |}]).
  { unfold format_history_for_context, history_line. simpl.
    now rewrite !str_app_assoc. }
  split; [exact H|]. unfold full_query. now rewrite H.
Qed.

(** ** Extracted text *)

(** X18. The text of a file is made of its pages that have text, each
    followed by a line feed, in page order, stripped of the white space at
    both ends; pages without text leave no trace, not even an empty
    line. *)
Theorem page_text_skips_pages_without_text (pages : list string) :
  page_text pages
  = PyStr.strip
      (String.concat ""
         (map (fun p => p ++ PyStr.nl) (filter PyStr.truthy pages)))
  /\ page_text pages = page_text (filter PyStr.truthy pages).
Proof.
  assert (H : forall l, page_text l
                        = PyStr.strip
                            (String.concat ""
                               (map (fun p => p ++ PyStr.nl)
                                    (filter PyStr.truthy l)))).
  { intros l. unfold page_text. now rewrite append_pages_concat. }
  split; [apply H|].
  rewrite (H pages), (H (filter PyStr.truthy pages)). f_equal. f_equal.
  f_equal. induction pages as [|p pages IH]; simpl; [reflexivity|].
  destruct (PyStr.truthy p) eqn:Ep; simpl; [|exact IH].
  now rewrite Ep, <- IH.
Qed.

Section MoreIndexFacts.

Variable pdf_pages : list byte -> Exception + list string.
Variable exc_str : Exception -> string.

Local Abbreviation index_pdf' := (index_pdf pdf_pages exc_str).

(** X19. The text [index_pdf] stores is stripped: it is not empty, it
    neither starts nor ends with a white-space character, and stripping it
    again changes nothing. *)
Theorem index_pdf_stores_stripped_text st file_id file r st1 :
  Dict.get (vectorstore_cache st) file_id = None ->
  index_pdf' file_id file st = (inr r, st1) ->
  exists info,
    Dict.get (vectorstore_cache st1) file_id = Some info
    /\ text info <> ""
    /\ (forall c, first_char (text info) = Some c -> PyStr.isspace c = false)
    /\ (forall c, last_char (text info) = Some c -> PyStr.isspace c = false)
    /\ PyStr.strip (text info) = text info.
Proof.
  intros Habs Hrun.
  destruct (index_pdf_new_id_success pdf_pages exc_str st file_id file r st1
              Habs Hrun) as (_ & pages & _ & Ht & Hcache & _ & _).
  eexists. split; [rewrite Hcache; apply dict_get_set_same|]. simpl.
  split; [exact Ht|]. unfold page_text. split; [|split].
  - intros c. apply strip_first.
  - intros c. apply rstrip_last.
  - apply strip_idem.
Qed.

(** X20. A file whose pages hold nothing but white space is never cached:
    its text is empty, so under an id that is not indexed the upload is
    turned down (the 400 "Could not extract text from PDF", leaving the
    handler as a 500) and the cache stays as it was. *)
Theorem index_pdf_rejects_blank_pages st file_id file pages :
  Dict.get (vectorstore_cache st) file_id = None ->
  file_bytes file <> [] ->
  pdf_pages (file_bytes file) = inr pages ->
  (forall p, In p pages -> all_space p = true) ->
  page_text pages = ""
  /\ index_pdf' file_id file st
     = (inl (HTTPException 500
               (exc_str
                  (HTTPException 400 "Could not extract text from PDF"))),
        logged st (CallPdfReader (file_bytes file)))
  /\ vectorstore_cache (snd (index_pdf' file_id file st))
     = vectorstore_cache st.
Proof.
  intros Habs Hne Ep Hblank.
  assert (Ht : page_text pages = "").
  { unfold page_text, PyStr.strip.
    rewrite lstrip_all_space; [reflexivity|].
    now apply append_pages_all_space. }
  apply dict_contains_false in Habs.
  rewrite index_pdf_of_try.
  rewrite (index_pdf_try_no_text pdf_pages st file_id file pages
             Hne Habs Ep Ht).
  repeat split. exact Ht.
Qed.

End MoreIndexFacts.

(** ** Authentication *)

(** X21. Once the service has started, its API key is not empty and
    [verify_api_key] lets a request through exactly when the key it
    carries is that key, character for character; any other key, the
    empty one included, is answered with the 401 "Invalid API key". *)
Theorem verify_api_key_exact env key x_api_key :
  load_agent_api_key env = inr key ->
  key <> ""
  /\ env = Some key
  /\ (verify_api_key key x_api_key = inr true <-> x_api_key = key)
  /\ (x_api_key <> key ->
      verify_api_key key x_api_key = inl (HTTPException 401 "Invalid API key"))
  /\ verify_api_key key "" = inl (HTTPException 401 "Invalid API key").
Proof.
  unfold load_agent_api_key. destruct env as [k|]; [|discriminate].
  destruct (PyStr.truthy k) eqn:Ek; [|discriminate]. intros [= <-].
  apply truthy_true_iff in Ek.
  split; [exact Ek|]. split; [reflexivity|].
  unfold verify_api_key. split; [|split].
  - destruct (String.eqb_spec x_api_key k); simpl; split;
      congruence || discriminate.
  - intros Hx. destruct (String.eqb_spec x_api_key k); simpl; congruence.
  - destruct (String.eqb_spec "" k); simpl; congruence.
Qed.

(** ** Concrete runs of the further properties *)

Lemma index_pdf_raises_only_500_witness :
  fst (Demo.index_pdf "doc2" Demo.blank Demo.st1)
  = inl (HTTPException 500 "400: Could not extract text from PDF")
  /\ vectorstore_cache (snd (Demo.index_pdf "doc2" Demo.blank Demo.st1))
     = vectorstore_cache Demo.st1.
Proof.
  split; [reflexivity|].
  destruct (index_pdf_raises_only_500 Demo.pdf_pages Demo.exc_str Demo.st1
              "doc2" Demo.blank _ _ eq_refl) as [_ Hcache].
  exact Hcache.
Defined.

Lemma reachable_cache_invariants_witness :
  Dict.wf (vectorstore_cache Demo.st1)
  /\ cache_ok (vectorstore_cache Demo.st1).
Proof.
  apply (reachable_cache_invariants Demo.Vec Demo.pdf_pages
           Demo.OPENAI_API_KEY Demo.split_text Demo.embed_documents
           Demo.parse_chat_history Demo.exc_str Demo.chain_ainvoke).
  eapply reachable_step; [apply reachable_start|].
  change Demo.st1
    with (snd (index_pdf Demo.pdf_pages Demo.exc_str "doc1" Demo.report
                 initial_state)).
  apply step_index_pdf.
Defined.

Lemma index_then_delete_restores_cache_witness :
  Dict.get (vectorstore_cache Demo.st0) "doc1" = None
  /\ exists st2,
       delete_from_cache "doc1" Demo.st1
       = (inr {| message := "Removed report.pdf from cache" |}, st2)
       /\ vectorstore_cache st2 = vectorstore_cache Demo.st0.
Proof.
  split; [reflexivity|].
  exact (index_then_delete_restores_cache Demo.pdf_pages Demo.exc_str
           Demo.st0 "doc1" Demo.report _ Demo.st1 eq_refl eq_refl).
Defined.

Lemma delete_then_index_refreshes_witness :
  Dict.get (vectorstore_cache
              (snd (Demo.index_pdf "doc1" Demo.blank Demo.st1))) "doc1"
  = Some {| text := "Annual report"; file_name := "report.pdf";
            text_length := 13 |}
  /\ exists st2,
       Demo.index_pdf "doc1"
         {| filename := "v2.pdf"; file_bytes := Demo.bytes "Second edition" |}
         (snd (delete_from_cache "doc1" Demo.st1))
       = (inr {| resp_file_id := "doc1";
                 resp_file_name := "v2.pdf";
                 resp_text_length := Some 14;
                 already_indexed := false |}, st2)
       /\ Dict.get (vectorstore_cache st2) "doc1"
          = Some {| text := "Second edition"; file_name := "v2.pdf";
                    text_length := 14 |}.
Proof.
  split; [reflexivity|].
  destruct (delete_then_index_refreshes Demo.pdf_pages Demo.exc_str
              Demo.st1 "doc1"
              {| filename := "v2.pdf";
                 file_bytes := Demo.bytes "Second edition" |}
              _ ["Second edition"] eq_refl ltac:(discriminate) eq_refl
              ltac:(discriminate)) as [_ Hrefresh].
  exact Hrefresh.
Defined.

Lemma index_then_stats_witness :
  Dict.get (vectorstore_cache Demo.st0) "doc1" = None
  /\ cache_stats Demo.st1
     = (inr {| indexed_files := 1;
               files := [ {| sum_file_id := "doc1";
                             sum_name := "report.pdf";
                             sum_text_length := 13 |} ] |}, Demo.st1).
Proof.
  split; [reflexivity|].
  destruct (index_then_stats_lists_new_file_last Demo.pdf_pages Demo.exc_str
              Demo.st0 "doc1" Demo.report _ Demo.st1 eq_refl eq_refl)
    as (n & Hn & Hstats).
  injection Hn as <-. exact Hstats.
Defined.

Lemma demo_st1_wf : Dict.wf (vectorstore_cache Demo.st1).
Proof. repeat constructor. simpl. tauto. Defined.

Lemma cache_stats_matches_cache_witness :
  Dict.wf (vectorstore_cache Demo.st1)
  /\ exists stats,
       cache_stats Demo.st1 = (inr stats, Demo.st1)
       /\ indexed_files stats = List.length (files stats)
       /\ NoDup (map sum_file_id (files stats)).
Proof.
  split; [exact demo_st1_wf|].
  destruct (cache_stats_matches_cache Demo.st1 demo_st1_wf)
    as (stats & Hrun & _ & Hcount & Hnodup & _).
  exists stats. auto.
Defined.

Lemma delete_from_cache_stats_witness :
  Dict.wf (vectorstore_cache Demo.st1)
  /\ exists before after,
       fst (cache_stats Demo.st1) = inr before
       /\ fst (cache_stats (snd (delete_from_cache "doc1" Demo.st1)))
          = inr after
       /\ S (indexed_files after) = indexed_files before.
Proof.
  split; [exact demo_st1_wf|].
  destruct (delete_from_cache_stats Demo.st1 "doc1" _ demo_st1_wf eq_refl)
    as (before & after & Hb & Ha & Hcount & _).
  exists before, after. auto.
Defined.

Lemma index_pdf_present_id_skips_reader_witness :
  file_bytes Demo.blank <> []
  /\ Demo.index_pdf "doc1" Demo.blank Demo.st1
     = (inr {| resp_file_id := "doc1";
               resp_file_name := "blank.pdf";
               resp_text_length := None;
               already_indexed := true |}, Demo.st1).
Proof.
  split; [discriminate|].
  destruct (index_pdf_present_id_skips_reader Demo.pdf_pages Demo.exc_str
              Demo.st1 "doc1" Demo.blank _ eq_refl ltac:(discriminate))
    as [Hrun _].
  exact Hrun.
Defined.

Lemma query_malformed_history_witness :
  Demo.parse_chat_history "{"
  = inl (ValueError "Expecting value: line 1 column 1 (char 0)")
  /\ Demo.query "doc1" "What?" "{" Demo.st1
     = (inl (HTTPException 400
               ("Invalid chat_history: "
                ++ "Expecting value: line 1 column 1 (char 0)")),
        Demo.st1).
Proof.
  split; [reflexivity|].
  exact (query_malformed_history Demo.Vec Demo.OPENAI_API_KEY Demo.split_text
           Demo.embed_documents Demo.parse_chat_history Demo.exc_str
           Demo.chain_ainvoke Demo.st1 "doc1" "What?" "{" _ _
           eq_refl eq_refl).
Defined.

Lemma query_missing_api_key_witness :
  key_truthy (Some "") = false
  /\ query (Some "") Demo.split_text Demo.embed_documents
       Demo.parse_chat_history Demo.exc_str Demo.chain_ainvoke
       "doc1" "What?" "[]" Demo.st1
     = (inl (HTTPException 500 "OPENAI_API_KEY not found."), Demo.st1).
Proof.
  split; [reflexivity|].
  exact (query_missing_api_key Demo.Vec (Some "") Demo.split_text
           Demo.embed_documents Demo.parse_chat_history Demo.exc_str
           Demo.chain_ainvoke Demo.st1 "doc1" "What?" "[]" _ _
           eq_refl eq_refl eq_refl).
Defined.

Lemma query_embedding_failure_witness :
  Demo.embed_down 2 ["Annual report"] = inl (OtherError "Connection error.")
  /\ query Demo.OPENAI_API_KEY Demo.split_text Demo.embed_down
       Demo.parse_chat_history Demo.exc_str Demo.chain_ainvoke
       "doc1" "What?" "[]" Demo.st1
     = (inl (HTTPException 500 "Connection error."),
        logged (logged Demo.st1 (CallSplitText "Annual report"))
               (CallEmbedDocuments ["Annual report"])).
Proof.
  split; [reflexivity|].
  exact (query_embedding_failure Demo.Vec Demo.OPENAI_API_KEY Demo.split_text
           Demo.embed_down Demo.parse_chat_history Demo.exc_str
           Demo.chain_ainvoke Demo.st1 "doc1" "What?" "[]" _ _ _
           eq_refl eq_refl eq_refl ltac:(discriminate) ltac:(discriminate)
           eq_refl).
Defined.

Lemma query_no_chunks_witness :
  query Demo.OPENAI_API_KEY (fun _ => []) Demo.embed_documents
    Demo.parse_chat_history Demo.exc_str Demo.chain_ainvoke
    "doc1" "What?" "[]" Demo.st1
  = (inl (HTTPException 500 "Text was too short to be split into chunks."),
     logged Demo.st1 (CallSplitText "Annual report")).
Proof.
  exact (query_no_chunks Demo.Vec Demo.OPENAI_API_KEY (fun _ => [])
           Demo.embed_documents Demo.parse_chat_history Demo.exc_str
           Demo.chain_ainvoke Demo.st1 "doc1" "What?" "[]" _ _
           eq_refl eq_refl eq_refl ltac:(discriminate) eq_refl).
Defined.

Lemma format_history_app_witness :
  format_history_for_context (Demo.hello ++ Demo.hello)
  = "User: hi" ++ PyStr.nl ++ "Assistant: hello" ++ PyStr.nl
    ++ "User: hi" ++ PyStr.nl ++ "Assistant: hello".
Proof.
  rewrite (format_history_app Demo.hello Demo.hello)
    by discriminate.
  reflexivity.
Defined.

Lemma index_pdf_stores_stripped_text_witness :
  Dict.get (vectorstore_cache Demo.st0) "doc1" = None
  /\ exists info,
       Dict.get (vectorstore_cache Demo.st1) "doc1" = Some info
       /\ PyStr.strip (text info) = text info.
Proof.
  split; [reflexivity|].
  destruct (index_pdf_stores_stripped_text Demo.pdf_pages Demo.exc_str
              Demo.st0 "doc1" Demo.report _ Demo.st1 eq_refl eq_refl)
    as (info & Hget & _ & _ & _ & Hstrip).
  exists info. auto.
Defined.

Lemma index_pdf_rejects_blank_pages_witness :
  all_space "  " = true
  /\ Demo.index_pdf "doc2" Demo.blank Demo.st1
     = (inl (HTTPException 500 "400: Could not extract text from PDF"),
        logged Demo.st1 (CallPdfReader (file_bytes Demo.blank))).
Proof.
  split; [reflexivity|].
  destruct (index_pdf_rejects_blank_pages Demo.pdf_pages Demo.exc_str
              Demo.st1 "doc2" Demo.blank ["  "] eq_refl ltac:(discriminate)
              eq_refl) as (_ & Hrun & _).
  - intros p [<-|[]]. reflexivity.
  - exact Hrun.
Defined.

Lemma verify_api_key_exact_witness :
  load_agent_api_key (Some "s3cret") = inr "s3cret"
  /\ verify_api_key "s3cret" "S3cret"
     = inl (HTTPException 401 "Invalid API key")
  /\ verify_api_key "s3cret" "" = inl (HTTPException 401 "Invalid API key").
Proof.
  split; [reflexivity|].
  destruct (verify_api_key_exact (Some "s3cret") "s3cret" "S3cret" eq_refl)
    as (_ & _ & _ & Hother & Hempty).
  split; [apply Hother; discriminate | exact Hempty].
Defined.

(** ** Uploads and queries together *)

Section IndexAndQueryFacts.

Variable Vec : Type.
Variable pdf_pages : list byte -> Exception + list string.
Variable OPENAI_API_KEY : option string.
Variable split_text : string -> list string.
Variable embed_documents : nat -> list string -> Exception + list Vec.
Variable parse_chat_history : string -> Exception + list Message.
Variable exc_str : Exception -> string.
Variable chain_ainvoke : nat -> Chain Vec -> string -> Exception + Dict.t Value.

Local Abbreviation index_pdf' := (index_pdf pdf_pages exc_str).
Local Abbreviation create_pdf_chain' :=
  (create_pdf_chain OPENAI_API_KEY split_text embed_documents).
Local Abbreviation query' :=
  (query OPENAI_API_KEY split_text embed_documents parse_chat_history
         exc_str chain_ainvoke).

(** The first thing a query asks of a collaborator, once it is past its
    checks, is to split the cached text. *)
Lemma query_splits_cached_text st file_id q chat_history cached messages :
  Dict.get (vectorstore_cache st) file_id = Some cached ->
  parse_chat_history chat_history = inr messages ->
  key_truthy OPENAI_API_KEY = true ->
  text cached <> "" ->
  exists rest,
    calls (snd (query' file_id q chat_history st))
    = (calls st ++ CallSplitText (text cached) :: rest)%list.
Proof.
  intros Hget Hparse Hkey Htext.
  rewrite (query_indexed Vec OPENAI_API_KEY split_text embed_documents
             parse_chat_history exc_str chain_ainvoke
             st file_id q chat_history cached messages Hget Hparse).
  rewrite (create_pdf_chain_run Vec OPENAI_API_KEY split_text
             embed_documents (text cached) st Hkey).
  rewrite (create_faiss_index_run Vec split_text embed_documents
             (text cached) st Htext). cbv zeta.
  destruct (split_text (text cached)) as [|c cs]; simpl; [now exists []|].
  destruct (embed_documents _ (c :: cs)) as [e|vecs]; simpl.
  - eexists. rewrite <- app_assoc. reflexivity.
  - destruct (chain_ainvoke _ _ _); simpl; eexists;
      rewrite <- !app_assoc; reflexivity.
Qed.

(** The outcome of creating a chain depends on the state only through the
    call log. *)
Lemma create_pdf_chain_frame txt st st' :
  calls st = calls st' ->
  fst (create_pdf_chain' txt st) = fst (create_pdf_chain' txt st')
  /\ calls (snd (create_pdf_chain' txt st))
     = calls (snd (create_pdf_chain' txt st')).
Proof.
  intros Hcalls. run.
  destruct (key_truthy OPENAI_API_KEY); simpl; [|now split].
  destruct (PyStr.truthy txt); simpl; [|now split].
  destruct (split_text txt) as [|c cs]; simpl; [now rewrite Hcalls|].
  rewrite Hcalls.
  destruct (embed_documents _ _); simpl; now split.
Qed.

(** X22. A query is answered from the text that was extracted when the
    file was uploaded: after a successful upload under a new id, a query
    on that id (well-formed history, API key set) gets past the check of
    the id, and the text it hands to the splitter is the text of the pages
    of the uploaded file. The PDF reader is called once, by the upload,
    and not again by the query. *)
Theorem index_then_query_uses_extracted_text
    st file_id file r st1 q chat_history messages :
  Dict.get (vectorstore_cache st) file_id = None ->
  index_pdf' file_id file st = (inr r, st1) ->
  parse_chat_history chat_history = inr messages ->
  key_truthy OPENAI_API_KEY = true ->
  exists pages rest,
    pdf_pages (file_bytes file) = inr pages
    /\ calls (snd (query' file_id q chat_history st1))
       = (calls st ++ CallPdfReader (file_bytes file)
                   :: CallSplitText (page_text pages) :: rest)%list
    /\ forall data, ~ In (CallPdfReader data) rest.
Proof.
  intros Habs Hrun Hparse Hkey.
  destruct (index_pdf_new_id_success pdf_pages exc_str st file_id file r st1
              Habs Hrun) as (_ & pages & Ep & Et & Hcache & _ & Hcalls).
  assert (Hget : Dict.get (vectorstore_cache st1) file_id
                 = Some {| text := page_text pages;
                           file_name := filename file;
                           text_length := String.length (page_text pages) |})
    by (rewrite Hcache; apply dict_get_set_same).
  exists pages.
  rewrite (query_indexed Vec OPENAI_API_KEY split_text embed_documents
             parse_chat_history exc_str chain_ainvoke
             st1 file_id q chat_history _ messages Hget Hparse).
  cbn [text].
  rewrite (create_pdf_chain_run Vec OPENAI_API_KEY split_text
             embed_documents _ st1 Hkey).
  rewrite (create_faiss_index_run Vec split_text embed_documents
             _ st1 Et). cbv zeta. simpl.
  destruct (split_text (page_text pages)) as [|c cs]; simpl.
  { exists []. rewrite Hcalls, <- app_assoc. simpl. auto. }
  destruct (embed_documents _ (c :: cs)) as [e|vecs]; simpl.
  { eexists. rewrite Hcalls, <- !app_assoc. simpl.
    split; [exact Ep|]. split; [reflexivity|].
    intros data [H|[]]. discriminate H. }
  destruct (chain_ainvoke _ _ _); simpl; eexists;
    rewrite Hcalls, <- !app_assoc; simpl;
    (split; [exact Ep|]); (split; [reflexivity|]);
    intros data [H|[H|[]]]; discriminate H.
Qed.

(** X23. A query reads nothing of the cache but the record of its own id:
    in two states that hold the same record under the id and have the
    same call log, the query has the same outcome and makes the same
    calls, whatever else the two caches hold. *)
Theorem query_reads_only_its_record st st' file_id q chat_history :
  Dict.get (vectorstore_cache st) file_id
  = Dict.get (vectorstore_cache st') file_id ->
  calls st = calls st' ->
  fst (query' file_id q chat_history st)
  = fst (query' file_id q chat_history st')
  /\ calls (snd (query' file_id q chat_history st))
     = calls (snd (query' file_id q chat_history st')).
Proof.
  intros Hsame Hcalls.
  destruct (Dict.get (vectorstore_cache st') file_id) as [cached|] eqn:Hget'.
  2: { rewrite (query_absent Vec OPENAI_API_KEY split_text embed_documents
                  parse_chat_history exc_str chain_ainvoke
                  st file_id q chat_history Hsame).
       rewrite (query_absent Vec OPENAI_API_KEY split_text embed_documents
                  parse_chat_history exc_str chain_ainvoke
                  st' file_id q chat_history Hget').
       now split. }
  destruct (parse_chat_history chat_history) as [e|messages] eqn:Hparse.
  { assert (Hc : Dict.contains (vectorstore_cache st) file_id = true)
      by (apply dict_contains_true; eauto).
    assert (Hc' : Dict.contains (vectorstore_cache st') file_id = true)
      by (apply dict_contains_true; eauto).
    unfold query, query_try, try_except, bind, get_cache, lift, raise.
    rewrite Hc, Hc', Hparse. simpl. destruct e; simpl; now split. }
  rewrite (query_indexed Vec OPENAI_API_KEY split_text embed_documents
             parse_chat_history exc_str chain_ainvoke
             st file_id q chat_history cached messages Hsame Hparse).
  rewrite (query_indexed Vec OPENAI_API_KEY split_text embed_documents
             parse_chat_history exc_str chain_ainvoke
             st' file_id q chat_history cached messages Hget' Hparse).
  destruct (create_pdf_chain_frame (text cached) st st' Hcalls) as [Hf Hs].
  destruct (create_pdf_chain' (text cached) st) as [[e|chain] st2];
    destruct (create_pdf_chain' (text cached) st') as [[e'|chain'] st2'];
    simpl in *; try discriminate.
  - injection Hf as <-. now split.
  - injection Hf as <-. unfold logged. simpl. rewrite Hs.
    destruct (chain_ainvoke _ chain _); simpl; now split.
Qed.

End IndexAndQueryFacts.

Lemma index_then_query_witness :
  Dict.get (vectorstore_cache Demo.st0) "doc1" = None
  /\ exists rest,
       calls (snd (Demo.query "doc1" "What?" "[]" Demo.st1))
       = CallPdfReader (file_bytes Demo.report)
         :: CallSplitText "Annual report" :: rest.
Proof.
  split; [reflexivity|].
  destruct (index_then_query_uses_extracted_text Demo.Vec Demo.pdf_pages
              Demo.OPENAI_API_KEY Demo.split_text Demo.embed_documents
              Demo.parse_chat_history Demo.exc_str Demo.chain_ainvoke
              Demo.st0 "doc1" Demo.report _ Demo.st1 "What?" "[]" []
              eq_refl eq_refl eq_refl eq_refl)
    as (pages & rest & Ep & Hcalls & _).
  injection Ep as <-. exists rest. exact Hcalls.
Defined.

Lemma query_reads_only_its_record_witness :
  fst (Demo.query "doc1" "What?" "[]" Demo.st1)
  = fst (Demo.query "doc1" "What?" "[]"
           {| vectorstore_cache :=
                [("doc0", {| text := "Minutes"; file_name := "minutes.pdf";
                             text_length := 7 |});
                 ("doc1", {| text := "Annual report";
                             file_name := "report.pdf";
                             text_length := 13 |})];
              calls := calls Demo.st1 |}).
Proof.
  destruct (query_reads_only_its_record Demo.Vec Demo.OPENAI_API_KEY
              Demo.split_text Demo.embed_documents Demo.parse_chat_history
              Demo.exc_str Demo.chain_ainvoke Demo.st1
              {| vectorstore_cache :=
                   [("doc0", {| text := "Minutes"; file_name := "minutes.pdf";
                                text_length := 7 |});
                    ("doc1", {| text := "Annual report";
                                file_name := "report.pdf";
                                text_length := 13 |})];
                 calls := calls Demo.st1 |}
              "doc1" "What?" "[]" eq_refl eq_refl) as [Hsame _].
  exact Hsame.
Defined.
